(** * Sales data pipeline: the automation manager

    A shallow embedding of [SalesAutomationManager] (automation_script.py):
    [__init__], [load_config], [setup_logging], [create_backup] and
    [validate_data_quality], with the parts of the Python runtime they
    lean on (dict update, [datetime], [strptime], number formatting,
    [pathlib] globbing).

    Conventions.
    - A Python [dict] with string keys is a [gmap string _]; a JSON value
      is a [json].
    - An [int] is a [Z]; a [float] is the rational its double denotes,
      a [Q].  An operation that yields a float rounds to the nearest
      double ([round_double]): [total_seconds()], the division by 3600,
      the conversion of an [int] that the [f] format code and numpy's
      mixed comparisons make.  Python compares a float with an [int]
      exactly.  Infinities and NaN do not occur in the values at hand.
    - Code that can raise returns [exn + A]; code that appends to a list
      or a log while it may still raise runs in the monad [M], whose state
      survives the exception, as the mutated Python objects do. *)

From Stdlib Require Import ZArith QArith Qabs Qround Qpower Lqa String Ascii List
  Lia DecimalString.
From stdpp Require Import gmap strings list fin_maps.

#[local] Set Warnings "-register-all".
#[local] Open Scope string_scope.
#[local] Open Scope Z_scope.

(** ** Python values *)

(** What [json.load] builds.  A float carries the rational it denotes
    and the text [str()] prints for it (the shortest literal that reads
    back as the same double); both come from the parsed file. *)
Inductive json : Type :=
| JNull
| JBool (b : bool)
| JInt (z : Z)
| JFloat (value : Q) (text : string)
| JStr (s : string)
| JArr (l : list json)
| JObj (m : gmap string json).

(** Exceptions derived from [Exception].  [KeyError] keeps the key;
    the others keep the text [str(e)] gives. *)
Inductive exn : Type :=
| KeyError (key : string)
| TypeError (msg : string)
| ValueError (msg : string)
| OSError (msg : string)
| DatabaseError (msg : string).

(** [str(e)].  For [KeyError] it is the [repr] of the key; the keys
    looked up in this program are literals without quotes or escapes. *)
Definition str_exn (e : exn) : string :=
  match e with
  | KeyError k => "'" ++ k ++ "'"
  | TypeError m | ValueError m | OSError m | DatabaseError m => m
  end.

(** [type(v).__name__] *)
Definition type_name (v : json) : string :=
  match v with
  | JNull => "NoneType"
  | JBool _ => "bool"
  | JInt _ => "int"
  | JFloat _ _ => "float"
  | JStr _ => "str"
  | JArr _ => "list"
  | JObj _ => "dict"
  end.

(** [d[key]] on a dict. *)
Definition getitem (d : gmap string json) (key : string) : exn + json :=
  match d !! key with
  | Some v => inr v
  | None => inl (KeyError key)
  end.

(** [v[key]] on any value, with a [str] key: only a dict answers. *)
Definition subscript (v : json) (key : string) : exn + json :=
  match v with
  | JObj d => getitem d key
  | JArr _ => inl (TypeError "list indices must be integers or slices, not str")
  | JStr _ => inl (TypeError "string indices must be integers, not 'str'")
  | _ => inl (TypeError ("'" ++ type_name v ++ "' object is not subscriptable"))
  end.

(** ** Configuration *)

(** automation_script.py, lines 34-61 *)
Definition default_config : gmap string json :=
  {[ "database_path" := JStr "sales_data.db";
     "backup_path" := JStr "backups/";
     "log_path" := JStr "logs/";
     "email_alerts" := JObj
       {[ "enabled" := JBool false;
          "smtp_server" := JStr "smtp.gmail.com";
          "smtp_port" := JInt 587;
          "sender_email" := JStr "";
          "sender_password" := JStr "";
          "recipients" := JArr [] ]};
     "data_sources" := JObj
       {[ "crm_api_url" := JStr "";
          "erp_api_url" := JStr "";
          "pos_api_url" := JStr "" ]};
     "quality_thresholds" := JObj
       {[ "min_daily_transactions" := JInt 100;
          "max_transaction_amount" := JInt 10000;
          "data_freshness_hours" := JInt 24 ]};
     "schedule" := JObj
       {[ "etl_frequency" := JStr "hourly";
          "backup_frequency" := JStr "daily";
          "report_frequency" := JStr "weekly" ]} ]}.

(** [d.update(other)] for a dict [other]: every key of [other] is set in
    [d], the remaining keys of [d] stay. *)
Definition dict_update (d other : gmap string json) : gmap string json :=
  other ∪ d.

(** What [load_config] finds at [config_file].  The file format is a JSON
    object; [Parsed] holds the dict [json.load] returns for it.
    [Unreadable] is any exception of [open] or [json.load]; [Absent]
    records whether writing the defaults raised. *)
Inductive config_file : Type :=
| Absent (write_error : option exn)
| Unreadable (e : exn)
| Parsed (user_config : gmap string json).

(** The line [load_config] prints in its handler. *)
Definition config_error_line (e : exn) : string :=
  "Error loading config: " ++ str_exn e ++ ". Using defaults.".

(** automation_script.py, lines 32-76.  Returns the configuration and
    the lines printed. *)
Definition load_config (f : config_file) : gmap string json * list string :=
  match f with
  | Parsed user_config => (dict_update default_config user_config, [])
  | Absent None => (default_config, [])
  | Absent (Some e) => (default_config, [config_error_line e])
  | Unreadable e => (default_config, [config_error_line e])
  end.

(** The option a path of keys leads to, [cfg[k1][k2]...], if every step
    is a dict holding the key. *)
Fixpoint lookup_path (path : list string) (v : json) : option json :=
  match path with
  | [] => Some v
  | k :: rest =>
      match v with
      | JObj d => match d !! k with Some w => lookup_path rest w | None => None end
      | _ => None
      end
  end.

(** The enumerated (top-level) option names. *)
Definition known_options : gset string := dom default_config.

(** ** Numbers and their formatting *)

(** [str(n)] for an [int]. *)
Definition str_Z (z : Z) : string :=
  DecimalString.NilZero.string_of_int (Z.to_int z).

(** The number a value stands for in a comparison or in arithmetic:
    [bool] is a subclass of [int]. *)
Definition as_number (v : json) : option Q :=
  match v with
  | JBool b => Some (inject_Z (if b then 1 else 0))
  | JInt z => Some (inject_Z z)
  | JFloat q _ => Some q
  | _ => None
  end.

(** [str(v)], as an f-string field [{v}] prints it, for the values that
    reach a field in this program: numbers and strings. *)
Definition str_scalar (v : json) : option string :=
  match v with
  | JBool b => Some (if b then "True" else "False")
  | JInt z => Some (str_Z z)
  | JFloat _ text => Some text
  | JStr s => Some s
  | JNull => Some "None"
  | JArr _ | JObj _ => None
  end.

(** [a < b] on rationals, as a boolean. *)
Definition Qltb (a b : Q) : bool := negb (Qle_bool b a).

(** Rounding to the nearest integer, ties to the even one: the rounding
    of the [f] format code. *)
Definition round_half_even (q : Q) : Z :=
  let n := Qnum q in
  let d := Zpos (Qden q) in
  let fl := n / d in
  let r := n mod d in
  match 2 * r ?= d with
  | Lt => fl
  | Gt => fl + 1
  | Eq => if Z.even fl then fl else fl + 1
  end.

(** *** Doubles *)

Definition pow2 (e : Z) : Q := (2 ^ e)%Q.

(** The integer part of the binary logarithm of [n / d]. *)
Definition log2_floor (n d : positive) : Z :=
  let l := Z.log2 (Zpos n) - Z.log2 (Zpos d) in
  if Qle_bool (pow2 l) (Zpos n # d) then l else l - 1.

(** The double nearest to [n / d], ties to the even significand: 53
    bits of significand above the smallest exponent, [2^-1074] apart
    below it.  Magnitudes from [2^1024] on, which overflow, are not
    among the values at hand (ages, amounts and counts of 64 bits). *)
Definition nearest_double (n d : positive) : Q :=
  let e := Z.max (log2_floor n d - 52) (-1074) in
  Qred (inject_Z (round_half_even ((Zpos n # d) / pow2 e)) * pow2 e).

(** The double a rational rounds to: the result of a correctly rounded
    operation whose exact result is [q]. *)
Definition round_double (q : Q) : Q :=
  match Qnum q with
  | Z0 => 0
  | Zpos n => nearest_double n (Qden q)
  | Zneg n => - nearest_double n (Qden q)
  end.

(** [float(z)] *)
Definition float_of_Z (z : Z) : Q := round_double (inject_Z z).

(** Rounding is computed on closed numbers only. *)
Opaque round_double float_of_Z.

(** The decimal digits of [n >= 0], left-padded with zeros to [width]. *)
Definition zero_pad (width : nat) (n : Z) : string :=
  let s := str_Z n in
  String.concat "" (repeat "0" (width - String.length s)%nat) ++ s.

(** Thousands separators: [n >= 0] printed with a comma before every
    group of three digits.  [fuel] bounds the number of groups. *)
Fixpoint group_thousands (fuel : nat) (n : Z) : string :=
  match fuel with
  | O => str_Z n
  | S fuel' =>
      if n <? 1000 then str_Z n
      else group_thousands fuel' (n / 1000) ++ "," ++ zero_pad 3 (n mod 1000)
  end.

(** [format(q, ',.<digits>f')] when [grouping], [format(q, '.<digits>f')]
    otherwise.  A negative value keeps its sign when it rounds to zero. *)
Definition format_f (grouping : bool) (digits : nat) (q : Q) : string :=
  let scale := 10 ^ Z.of_nat digits in
  let n := round_half_even (Qabs q * inject_Z scale) in
  let whole := n / scale in
  let sign := if Qltb q 0 then "-" else "" in
  let int_part :=
    if grouping then group_thousands (Z.to_nat (Z.log2 whole)) whole
    else str_Z whole in
  match digits with
  | O => sign ++ int_part
  | _ => sign ++ int_part ++ "." ++ zero_pad digits (n mod scale)
  end.

(** ** [datetime] *)

(** A naive [datetime], as [datetime.now()] returns it. *)
Record datetime : Type := {
  year : Z; month : Z; day : Z;
  hour : Z; minute : Z; second : Z; microsecond : Z }.

(** The helpers of CPython's datetime.py. *)
Definition is_leap (y : Z) : bool :=
  (y mod 4 =? 0) && (negb (y mod 100 =? 0) || (y mod 400 =? 0)).

Definition days_before_year (y : Z) : Z :=
  let y' := y - 1 in y' * 365 + y' / 4 - y' / 100 + y' / 400.

Definition days_in_month (y m : Z) : Z :=
  if (m =? 2) && is_leap y then 29
  else nth (Z.to_nat m) [0; 31; 28; 31; 30; 31; 30; 31; 31; 30; 31; 30; 31] 0.

Definition days_before_month (y m : Z) : Z :=
  nth (Z.to_nat m) [0; 0; 31; 59; 90; 120; 151; 181; 212; 243; 273; 304; 334] 0
  + (if (2 <? m) && is_leap y then 1 else 0).

(** [date(y, m, d).toordinal()]: day 1 is 0001-01-01. *)
Definition ymd2ord (y m d : Z) : Z :=
  days_before_year y + days_before_month y m + d.

(** Microseconds from 0001-01-01 00:00:00 to [t]. *)
Definition to_micros (t : datetime) : Z :=
  (((ymd2ord (year t) (month t) (day t) - 1) * 86400
    + hour t * 3600 + minute t * 60 + second t) * 1000000)
  + microsecond t.

(** The [timedelta] [a - b], in seconds: a whole number of
    microseconds. *)
Definition total_seconds (a b : datetime) : Q :=
  (to_micros a - to_micros b) # 1000000.

(** [(now - latest).total_seconds() / 3600], line 164.
    [total_seconds()] divides the microseconds by [10**6] and yields the
    nearest double; dividing that by 3600 rounds once more. *)
Definition hours_of (seconds : Q) : Q :=
  round_double (round_double seconds / inject_Z 3600).

Definition hours_old (now latest : datetime) : Q :=
  hours_of (total_seconds now latest).

Opaque hours_of hours_old.

(** [t.strftime('%Y-%m-%d')], for the years from 1000 on ([%Y] is not
    zero-padded by every C library below that). *)
Definition strftime_Ymd (t : datetime) : string :=
  zero_pad 4 (year t) ++ "-" ++ zero_pad 2 (month t) ++ "-" ++ zero_pad 2 (day t).

(** [t.strftime('%Y%m%d_%H%M%S')] *)
Definition strftime_stamp (t : datetime) : string :=
  zero_pad 4 (year t) ++ zero_pad 2 (month t) ++ zero_pad 2 (day t) ++ "_"
  ++ zero_pad 2 (hour t) ++ zero_pad 2 (minute t) ++ zero_pad 2 (second t).

(** *** [datetime.strptime(s, '%Y-%m-%d')] *)

Definition digit_value (c : ascii) : option Z :=
  let n := Z.of_nat (nat_of_ascii c) in
  if (48 <=? n) && (n <=? 57) then Some (n - 48) else None.

Definition in_range (lo hi : Z) (c : ascii) : bool :=
  match digit_value c with
  | Some n => (lo <=? n) && (n <=? hi)
  | None => false
  end.

(** [%Y] is the pattern [\d\d\d\d]. *)
Definition match_Y (s : string) : option (Z * string) :=
  match s with
  | String a (String b (String c (String d rest))) =>
      match digit_value a, digit_value b, digit_value c, digit_value d with
      | Some a, Some b, Some c, Some d => Some (a * 1000 + b * 100 + c * 10 + d, rest)
      | _, _, _, _ => None
      end
  | _ => None
  end.

(** [%m] is [1[0-2]|0[1-9]|[1-9]], the alternatives tried in this order. *)
Definition match_m (s : string) : option (Z * string) :=
  match s with
  | String a (String b rest) =>
      if (in_range 1 1 a && in_range 0 2 b) || (in_range 0 0 a && in_range 1 9 b)
      then match digit_value a, digit_value b with
           | Some a, Some b => Some (a * 10 + b, rest)
           | _, _ => None
           end
      else if in_range 1 9 a then
        match digit_value a with Some a => Some (a, String b rest) | None => None end
      else None
  | String a rest =>
      if in_range 1 9 a then
        match digit_value a with Some a => Some (a, rest) | None => None end
      else None
  | EmptyString => None
  end.

(** [%d] is [3[01]|[12]\d|0[1-9]|[1-9]| [1-9]]. *)
Definition match_d (s : string) : option (Z * string) :=
  match s with
  | String a (String b rest) =>
      if (in_range 3 3 a && in_range 0 1 b) || (in_range 1 2 a && in_range 0 9 b)
         || (in_range 0 0 a && in_range 1 9 b)
      then match digit_value a, digit_value b with
           | Some a, Some b => Some (a * 10 + b, rest)
           | _, _ => None
           end
      else if in_range 1 9 a then
        match digit_value a with Some a => Some (a, String b rest) | None => None end
      else if Ascii.eqb a " " && in_range 1 9 b then
        match digit_value b with Some b => Some (b, rest) | None => None end
      else None
  | String a rest =>
      if in_range 1 9 a then
        match digit_value a with Some a => Some (a, rest) | None => None end
      else None
  | EmptyString => None
  end.

Definition match_dash (s : string) : option string :=
  match s with
  | String c rest => if Ascii.eqb c "-" then Some rest else None
  | EmptyString => None
  end.

Definition strptime_mismatch (s : string) : exn :=
  ValueError ("time data '" ++ s ++ "' does not match format '%Y-%m-%d'").

(** The regular expression is matched at the start of [s]; text left
    over, a year 0 and a day the month does not have are [ValueError]s.
    In [%m], a first alternative followed by no dash cannot be repaired
    by the one-digit alternative, so the match is tried once. *)
Definition strptime_Ymd (s : string) : exn + datetime :=
  match match_Y s with
  | None => inl (strptime_mismatch s)
  | Some (y, s1) =>
  match match_dash s1 with
  | None => inl (strptime_mismatch s)
  | Some s2 =>
  match match_m s2 with
  | None => inl (strptime_mismatch s)
  | Some (m, s3) =>
  match match_dash s3 with
  | None => inl (strptime_mismatch s)
  | Some s4 =>
  match match_d s4 with
  | None => inl (strptime_mismatch s)
  | Some (d, rest) =>
      if negb (String.eqb rest "") then
        inl (ValueError ("unconverted data remains: " ++ rest))
      else if y =? 0 then inl (ValueError "year 0 is out of range")
      else if days_in_month y m <? d then
        inl (ValueError "day is out of range for month")
      else inr {| year := y; month := m; day := d;
                  hour := 0; minute := 0; second := 0; microsecond := 0 |}
  end end end end end.

(** ** The database, as the validator sees it *)

(** One cell of a query result, as pandas hands it to Python: [None] for
    NULL, a numpy integer or float, a [str] for TEXT. *)
Inductive cell : Type :=
| CNull
| CInt (z : Z)
| CReal (q : Q)
| CText (s : string).

(** An open connection answers the three queries of
    [validate_data_quality]; each may raise (missing table or column,
    locked or corrupt file).  The first two take the bound parameter
    [today].
    - [count_on d]: SELECT COUNT( * ) FROM sales_transactions
                    WHERE DATE(transaction_date) = d
    - [max_amount_on d]: SELECT MAX(total_amount) ... WHERE the same
    - [latest_date]: SELECT MAX(transaction_date) FROM sales_transactions *)
Record connection : Type := {
  count_on : string -> exn + Z;
  max_amount_on : string -> exn + cell;
  latest_date : exn + cell }.

(** A row of [sales_transactions]: the text its [transaction_date]
    holds; what SQLite's DATE() makes of that text, [date_of] (the day
    as 'YYYY-MM-DD' with the time of day dropped, or NULL for text it
    cannot read); and its [total_amount], a REAL. *)
Record transaction : Type := {
  transaction_date : string;
  date_of : option string;
  total_amount : Q }.

Definition dated (d : string) (r : transaction) : bool :=
  match date_of r with
  | Some day => String.eqb day d
  | None => false
  end.

(** MAX over a REAL column: NULL on no rows. *)
Definition sql_max_real (l : list Q) : cell :=
  match l with
  | [] => CNull
  | x :: rest => CReal (fold_left (fun a b => if Qltb a b then b else a) rest x)
  end.

(** MAX over a TEXT column (binary collation): NULL on no rows. *)
Definition sql_max_text (l : list string) : cell :=
  match l with
  | [] => CNull
  | x :: rest => CText (fold_left (fun a b => if String.ltb a b then b else a) rest x)
  end.

Definition table_connection (rows : list transaction) : connection :=
  {| count_on d := inr (Z.of_nat (length (List.filter (dated d) rows)));
     max_amount_on d := inr (sql_max_real (map total_amount (List.filter (dated d) rows)));
     latest_date := inr (sql_max_text (map transaction_date rows)) |}.

(** ** Statements that mutate and may raise *)

(** A computation over a mutable state [S]: it ends with a value or with
    an exception, and the state it has reached is kept either way. *)
Definition M (S A : Type) : Type := S -> (exn + A) * S.

Definition ret {S A} (a : A) : M S A := fun s => (inr a, s).

Definition bind {S A B} (c : M S A) (k : A -> M S B) : M S B :=
  fun s => match c s with
           | (inr a, s') => k a s'
           | (inl e, s') => (inl e, s')
           end.

(** A pure step that may raise. *)
Definition lift {S A} (x : exn + A) : M S A := fun s => (x, s).

Definition raise {S A} (e : exn) : M S A := lift (inl e).

Inductive level : Type := INFO | WARNING | ERROR.

(** The state of [validate_data_quality]: the list [quality_issues] and
    the records handed to the logger. *)
Record report : Type := {
  quality_issues : list string;
  log : list (level * string) }.

(** [quality_issues.append(issue)] *)
Definition append (issue : string) : M report unit :=
  fun r => (inr tt, {| quality_issues := quality_issues r ++ [issue]; log := log r |}).

(** [self.logger.<lvl>(msg)] *)
Definition logger (lvl : level) (msg : string) : M report unit :=
  fun r => (inr tt, {| quality_issues := quality_issues r; log := log r ++ [(lvl, msg)] |}).

Notation "'let*' x := c 'in' k" := (bind c (fun x => k))
  (at level 10, x name, c at level 100, k at level 200).

(** A threshold that can stand in a comparison with a number, with the
    text an f-string field prints for it.  A threshold that is a JSON
    array is outside the model: numpy compares it element by element. *)
Definition to_number (v : json) : option (Q * string) :=
  match v with
  | JBool b => Some (inject_Z (if b then 1 else 0), if b then "True" else "False")
  | JInt z => Some (inject_Z z, str_Z z)
  | JFloat q text => Some (q, text)
  | _ => None
  end.

(** The [TypeError] of a comparison between unordered types. *)
Definition unsupported (op lhs rhs : string) : exn :=
  TypeError ("'" ++ op ++ "' not supported between instances of '"
             ++ lhs ++ "' and '" ++ rhs ++ "'").

(** [self.config['quality_thresholds'][name]] *)
Definition threshold (config : gmap string json) (name : string) : exn + json :=
  match getitem config "quality_thresholds" with
  | inl e => inl e
  | inr t => subscript t name
  end.

(** [type(c).__name__] of a cell *)
Definition cell_type (c : cell) : string :=
  match c with
  | CNull => "NoneType"
  | CInt _ => "numpy.int64"
  | CReal _ => "numpy.float64"
  | CText _ => "str"
  end.

(** The number a numpy integer [z] stands for in a comparison with the
    threshold [v]: numpy converts both sides to doubles when one is a
    Python float, and compares integers as they are. *)
Definition numpy_int (z : Z) (v : json) : Q :=
  match v with
  | JFloat _ _ => float_of_Z z
  | _ => inject_Z z
  end.

(** The number the threshold [v], of value [t], stands for in a
    comparison with a numpy float: a Python [int] is converted to a
    double. *)
Definition beside_numpy_float (v : json) (t : Q) : Q :=
  match v with
  | JInt m => float_of_Z m
  | _ => t
  end.


(** [bool(c)] *)
Definition truthy (c : cell) : bool :=
  match c with
  | CNull => false
  | CInt z => negb (z =? 0)
  | CReal q => negb (Qeq_bool q 0)
  | CText s => negb (String.eqb s "")
  end.

(** ** [validate_data_quality], automation_script.py lines 121-177 *)

Definition low_count_issue (daily_count : Z) (min_threshold : string) : string :=
  "Low transaction count today: " ++ str_Z daily_count
  ++ " (expected: >" ++ min_threshold ++ ")".

Definition high_amount_issue (max_amount : Q) : string :=
  "Unusually high transaction detected: $" ++ format_f true 2 max_amount.

Definition stale_issue (hours_old : Q) (freshness_threshold : string) : string :=
  "Data is stale: " ++ format_f false 1 hours_old
  ++ " hours old (threshold: " ++ freshness_threshold ++ "h)".

Definition failed_issue (e : exn) : string :=
  "Data quality check failed: " ++ str_exn e.

(** Lines 127-140.  [daily_count] is a numpy integer;
    [daily_count < min_threshold] raises for a threshold that is not a
    number. *)
Definition check_transaction_count (config : gmap string json)
    (conn : connection) (today : string) : M report unit :=
  let* daily_count := lift (count_on conn today) in
  let* min_threshold := lift (threshold config "min_daily_transactions") in
  match to_number min_threshold with
  | None => raise (unsupported "<" "numpy.int64" (type_name min_threshold))
  | Some (t, text) =>
      if Qltb (numpy_int daily_count min_threshold) t then
        let issue := low_count_issue daily_count text in
        let* _ := append issue in logger WARNING issue
      else ret tt
  end.

(** Lines 142-154.  [max_amount] is the Python [int] 0 for a cell that
    is false, and the cell otherwise: a numpy integer or float, or a
    string.  The [f] format code prints an integer through [float].  Two
    strings compare as strings, and then the format code refuses the
    string; any other mix of types raises in the comparison. *)
Definition check_transaction_amounts (config : gmap string json)
    (conn : connection) (today : string) : M report unit :=
  let* result := lift (max_amount_on conn today) in
  let* max_threshold := lift (threshold config "max_transaction_amount") in
  let number_case (type : string) (left : Q) (right : Q -> Q) (printed : Q)
      : M report unit :=
    match to_number max_threshold with
    | None => raise (unsupported ">" type (type_name max_threshold))
    | Some (t, _) =>
        if Qltb (right t) left then
          let issue := high_amount_issue printed in
          let* _ := append issue in logger WARNING issue
        else ret tt
    end in
  if truthy result then
    match result with
    | CInt z =>
        number_case "numpy.int64" (numpy_int z max_threshold) (fun t => t)
                    (float_of_Z z)
    | CReal q =>
        number_case "numpy.float64" q (beside_numpy_float max_threshold) q
    | CText s =>
        match max_threshold with
        | JStr t =>
            if String.ltb t s
            then raise (ValueError "Unknown format code 'f' for object of type 'str'")
            else ret tt
        | _ => raise (unsupported ">" "str" (type_name max_threshold))
        end
    | CNull => ret tt
    end
  else number_case "int" 0%Q (fun t => t) 0%Q.

(** Lines 156-170.  [now] is the clock reading of line 164. *)
Definition check_freshness (config : gmap string json)
    (conn : connection) (now : datetime) : M report unit :=
  let* result := lift (latest_date conn) in
  if truthy result then
    let* latest := lift (match result with
                    | CText s => strptime_Ymd s
                    | _ => inl (TypeError ("strptime() argument 1 must be str, not "
                                           ++ cell_type result))
                    end) in
    let age := hours_old now latest in
    let* freshness_threshold := lift (threshold config "data_freshness_hours") in
    match to_number freshness_threshold with
    | None => raise (unsupported ">" "float" (type_name freshness_threshold))
    | Some (t, text) =>
        if Qltb t age then
          let issue := stale_issue age text in
          let* _ := append issue in logger WARNING issue
        else ret tt
    end
  else ret tt.

(** [sqlite3.connect(self.config['database_path'])] *)
Definition connect (sqlite3_connect : string -> exn + connection)
    (config : gmap string json) : exn + connection :=
  match getitem config "database_path" with
  | inl e => inl e
  | inr (JStr path) => sqlite3_connect path
  | inr v => inl (TypeError ("expected str, bytes or os.PathLike object, not "
                             ++ type_name v))
  end.

(** The body of the [try], lines 126-170.  [now0] is the clock reading
    of line 128, [now1] that of line 164.  Leaving the [with] block
    commits or rolls back a connection that was only read from; both are
    taken to succeed. *)
Definition checks (config : gmap string json)
    (sqlite3_connect : string -> exn + connection)
    (now0 now1 : datetime) : M report unit :=
  let* conn := lift (connect sqlite3_connect config) in
  let today := strftime_Ymd now0 in
  let* _ := check_transaction_count config conn today in
  let* _ := check_transaction_amounts config conn today in
  check_freshness config conn now1.

Definition empty_report : report := {| quality_issues := []; log := [] |}.

(** The whole method: the handler of lines 172-175 appends to the list
    the body has filled so far.  Returns [quality_issues] and the log
    records written. *)
Definition validate_data_quality (config : gmap string json)
    (sqlite3_connect : string -> exn + connection)
    (now0 now1 : datetime) : list string * list (level * string) :=
  match checks config sqlite3_connect now0 now1 empty_report with
  | (inr _, r) => (quality_issues r, log r)
  | (inl e, r) =>
      let issue := failed_issue e in
      ((quality_issues r ++ [issue])%list, (log r ++ [(ERROR, issue)])%list)
  end.

(** ** The file system, as [create_backup] sees it *)

(** Regular files and directories; no links, and a process that may read
    and write everywhere.  A path is the tuple [PurePosixPath(s).parts];
    a relative path is relative to the working directory.  Modification
    times are POSIX seconds.  The kernel's updates of a directory's own
    time when an entry is added or removed are not tracked: no statement
    of the program reads the time of a directory it writes into. *)
Inductive node : Type :=
| File (content : string) (mtime : Q)
| Dir (mtime : Q).

Definition st_mtime (n : node) : Q :=
  match n with File _ t | Dir t => t end.

(** The text between the slashes of [s]; [cur] is the component read so
    far. *)
Fixpoint split_slash (s cur : string) : list string :=
  match s with
  | EmptyString => [cur]
  | String c rest =>
      if Ascii.eqb c "/" then cur :: split_slash rest ""
      else split_slash rest (cur ++ String c "")
  end.

Definition proper_component (c : string) : bool :=
  negb (String.eqb c "") && negb (String.eqb c ".").

(** [PurePosixPath(s).parts]: empty components and single dots are
    dropped; a leading slash is the anchor (two slashes exactly are an
    anchor of their own). *)
Definition parts (s : string) : list string :=
  let anchor :=
    if String.prefix "///" s then ["/"]
    else if String.prefix "//" s then ["//"]
    else if String.prefix "/" s then ["/"]
    else [] in
  (anchor ++ List.filter proper_component (split_slash s ""))%list.

(** [os.path.basename(s)] *)
Definition basename (s : string) : string :=
  List.last (split_slash s "") "".

(** [str(p)] for a path [p] *)
Definition str_path (p : list string) : string :=
  match p with
  | [] => "."
  | a :: rest =>
      if String.prefix "/" a then a ++ String.concat "/" rest
      else String.concat "/" p
  end.

Definition is_anchor (p : list string) : bool :=
  match p with
  | [] => true
  | [a] => String.prefix "/" a
  | _ => false
  end.

(** The working directory and the root are directories. *)
Definition is_dir (fs : gmap (list string) node) (p : list string) : bool :=
  is_anchor p || match fs !! p with Some (Dir _) => true | _ => false end.


Definition ends_with (suffix s : string) : bool :=
  let n := String.length s in
  let m := String.length suffix in
  (m <=? n)%nat && String.eqb (String.substring (n - m) m s) suffix.

(** [fnmatch(name, 'sales_backup_*.db')] *)
Definition is_backup_name (name : string) : bool :=
  String.prefix "sales_backup_" name
  && ends_with ".db" (String.substring 13 (String.length name - 13) name).

(** The name of [p] when [p] is an entry of the directory [dir]. *)
Fixpoint entry_name (dir p : list string) : option string :=
  match dir, p with
  | [], [name] => Some name
  | d :: dir', c :: p' => if String.eqb d c then entry_name dir' p' else None
  | _, _ => None
  end.

(** The entries of [dir] that [dir.glob('sales_backup_*.db')] yields, in
    the order the map enumerates them. *)
Definition backup_entries (fs : gmap (list string) node) (dir : list string)
    : list string :=
  List.filter is_backup_name (omap (entry_name dir) (map_to_list fs).*1).

(** The state of [create_backup]: the files, the records handed to the
    logger and the calls made to [send_alert] (subject and message).
    The logger's file handler writes each record to the log file of the
    day as well; [files] leaves that text out (see [is_log_file]). *)
Record world : Type := {
  files : gmap (list string) node;
  backup_log : list (level * string);
  alerts : list (string * string) }.

Definition set_files (f : gmap (list string) node -> gmap (list string) node)
    (w : world) : world :=
  {| files := f (files w); backup_log := backup_log w; alerts := alerts w |}.

Definition log_record (lvl : level) (msg : string) : M world unit :=
  fun w => (inr tt, {| files := files w;
                       backup_log := (backup_log w ++ [(lvl, msg)])%list;
                       alerts := alerts w |}).

(** Modelled from the spec: [send_alert], whose body lies past the end of
    the sources at hand.  Section 4.4 has it format and dispatch a
    message and never raise into its caller; the call is recorded. *)
Definition send_alert (subject message : string) : M world unit :=
  fun w => (inr tt, {| files := files w;
                       backup_log := backup_log w;
                       alerts := (alerts w ++ [(subject, message)])%list |}).

Definition errno (code what : string) (p : list string) : exn :=
  OSError ("[Errno " ++ code ++ "] " ++ what ++ ": '" ++ str_path p ++ "'").

(** [p.mkdir(exist_ok=True)] at clock time [t]: one level is created,
    under a parent that is a directory. *)
Definition mkdir_exist_ok (t : Q) (p : list string) : M world unit :=
  fun w =>
    let fs := files w in
    if is_dir fs p then (inr tt, w)
    else match fs !! p with
         | Some _ => (inl (errno "17" "File exists" p), w)
         | None =>
             if is_dir fs (removelast p)
             then (inr tt, set_files (insert p (Dir t)) w)
             else match fs !! removelast p with
                  | Some _ => (inl (errno "20" "Not a directory" p), w)
                  | None => (inl (errno "2" "No such file or directory" p), w)
                  end
         end.

(** Where [shutil.copy2(src, dst)] writes: a destination that is a
    directory stands for the entry named like the source inside it. *)
Definition copy_target (fs : gmap (list string) node) (src : string)
    (dst : list string) : list string :=
  if is_dir fs dst
  then (dst ++ List.filter proper_component [basename src])%list
  else dst.

(** [shutil.copy2(src, dst)]: the same file on both sides is refused;
    the copy carries the content and the modification time of the
    source. *)
Definition copy2 (src : string) (dst : list string) : M world unit :=
  fun w =>
    let fs := files w in
    let source := parts src in
    let target := copy_target fs src dst in
    if bool_decide (source = target) && bool_decide (is_Some (fs !! source))
    then (inl (OSError ("'" ++ src ++ "' and '" ++ str_path target
                        ++ "' are the same file")), w)
    else match fs !! source with
         | None =>
             if is_anchor source
             then (inl (errno "21" "Is a directory" source), w)
             else (inl (errno "2" "No such file or directory" source), w)
         | Some (Dir _) => (inl (errno "21" "Is a directory" source), w)
         | Some (File content mtime) =>
             if is_dir fs target
             then (inl (errno "21" "Is a directory" target), w)
             else if is_dir fs (removelast target)
             then (inr tt, set_files (insert target (File content mtime)) w)
             else match fs !! removelast target with
                  | Some _ => (inl (errno "20" "Not a directory" target), w)
                  | None => (inl (errno "2" "No such file or directory" target), w)
                  end
         end.

(** [p.stat().st_mtime] *)
Definition stat_mtime (p : list string) : M world Q :=
  fun w => match files w !! p with
           | Some n => (inr (st_mtime n), w)
           | None => (inl (errno "2" "No such file or directory" p), w)
           end.

(** [p.unlink()] *)
Definition unlink (p : list string) : M world unit :=
  fun w => match files w !! p with
           | Some (File _ _) => (inr tt, set_files (delete p) w)
           | Some (Dir _) => (inl (errno "21" "Is a directory" p), w)
           | None => (inl (errno "2" "No such file or directory" p), w)
           end.

(** ** [create_backup], automation_script.py lines 95-119 *)

(** The readings of the clock: the time at the [mkdir] in POSIX seconds,
    and [datetime.now()] at line 101 and at line 111. *)
Record clock : Type := {
  mkdir_time : Q;
  stamp_now : datetime;
  cutoff_now : datetime }.

(** Microseconds from 0001-01-01 to 1970-01-01. *)
Definition epoch_micros : Z := (719163 - 1) * 86400 * 1000000.

(** [timedelta(days=n)], in microseconds *)
Definition timedelta_days (n : Z) : Z := n * 86400 * 1000000.

(** [t.timestamp()] for the naive local time with microsecond count
    [micros], in a zone [utc_offset] seconds east of UTC throughout. *)
Definition timestamp (utc_offset : Z) (micros : Z) : Q :=
  ((micros - epoch_micros) # 1000000) - inject_Z utc_offset.

(** [(datetime.now() - timedelta(days=7)).timestamp()] *)
Definition cutoff_timestamp (utc_offset : Z) (now : datetime) : Q :=
  timestamp utc_offset (to_micros now - timedelta_days 7).

(** [Path(self.config['backup_path'])] *)
Definition backup_directory (config : gmap string json) : exn + list string :=
  match getitem config "backup_path" with
  | inl e => inl e
  | inr (JStr s) => inr (parts s)
  | inr v => inl (TypeError ("expected str, bytes or os.PathLike object, not "
                             ++ type_name v))
  end.

(** [self.config['database_path']], as a path to copy from; a value that
    is no string raises in the copy. *)
Definition database_path (config : gmap string json) : exn + string :=
  match getitem config "database_path" with
  | inl e => inl e
  | inr (JStr s) => inr s
  | inr v => inl (TypeError ("expected str, bytes or os.PathLike object, not "
                             ++ type_name v))
  end.

Definition backup_filename (now : datetime) : string :=
  "sales_backup_" ++ strftime_stamp now ++ ".db".

(** Lines 112-115, one turn of the loop. *)
Definition prune_one (dir : list string) (cutoff : Q) (name : string)
    : M world unit :=
  let backup := (dir ++ [name])%list in
  let* mtime := stat_mtime backup in
  if Qltb mtime cutoff then
    let* _ := unlink backup in
    log_record INFO ("Removed old backup: " ++ str_path backup)
  else ret tt.

Fixpoint prune (dir : list string) (cutoff : Q) (names : list string)
    : M world unit :=
  match names with
  | [] => ret tt
  | name :: rest =>
      let* _ := prune_one dir cutoff name in
      prune dir cutoff rest
  end.

(** The body of the [try], lines 98-115.  [scandir_order] is the order
    in which the operating system lists the entries the pattern keeps;
    the list is taken before the first deletion. *)
Definition backup_steps (config : gmap string json) (utc_offset : Z)
    (scandir_order : list string -> list string) (c : clock) : M world unit :=
  let* backup_dir := lift (backup_directory config) in
  let* _ := mkdir_exist_ok (mkdir_time c) backup_dir in
  let backup_file := (backup_dir ++ [backup_filename (stamp_now c)])%list in
  let* src := lift (database_path config) in
  let* _ := copy2 src backup_file in
  let* _ := log_record INFO ("Database backup created: " ++ str_path backup_file) in
  let cutoff := cutoff_timestamp utc_offset (cutoff_now c) in
  fun w => prune backup_dir cutoff (scandir_order (backup_entries (files w) backup_dir)) w.

(** The whole method, with the handler of lines 117-119. *)
Definition create_backup (config : gmap string json) (utc_offset : Z)
    (scandir_order : list string -> list string) (c : clock) (w : world) : world :=
  match backup_steps config utc_offset scandir_order c w with
  | (inr _, w') => w'
  | (inl e, w') =>
      snd ((let* _ := log_record ERROR ("Backup failed: " ++ str_exn e) in
            send_alert "Backup Failed" ("Database backup failed: " ++ str_exn e)) w')
  end.

(** ** Vocabulary of the statements *)

(** The report [s] with the issues and the log records of [d] added at
    the end. *)
Definition extend (s d : report) : report :=
  {| quality_issues := (quality_issues s ++ quality_issues d)%list;
     log := (log s ++ log d)%list |}.

(** A run is the same from any report: the outcome is that of the run
    from the empty report, and what it adds is added at the end. *)
Definition appends_only (c : M report unit) : Prop :=
  forall s, c s = ((c empty_report).1, extend s (c empty_report).2).

(** A check that raises has added nothing. *)
Definition raises_before_append (c : M report unit) : Prop :=
  forall e d, c empty_report = (inl e, d) -> d = empty_report.

(** The kinds of issue, told apart by how the text begins. *)
Definition is_volume_issue (s : string) : bool :=
  String.prefix "Low transaction count today: " s.

Definition is_outlier_issue (s : string) : bool :=
  String.prefix "Unusually high transaction detected: $" s.

Definition is_stale_issue (s : string) : bool :=
  String.prefix "Data is stale: " s.

Definition is_failure_issue (s : string) : bool :=
  String.prefix "Data quality check failed: " s.

(** What the handler adds for the way a run ended. *)
Definition handler_issue (r : exn + unit) : list string :=
  match r with
  | inl e => [failed_issue e]
  | inr _ => []
  end.


(** [str(t)] for a [datetime] with no microseconds, the text a
    timestamp column holds: 'YYYY-MM-DD HH:MM:SS'. *)
Definition str_datetime (t : datetime) : string :=
  strftime_Ymd t ++ " " ++ zero_pad 2 (hour t) ++ ":" ++ zero_pad 2 (minute t)
  ++ ":" ++ zero_pad 2 (second t).

(** What the loop of [create_backup] does to a path: it is as before, or
    it was an old file among the listed names and is gone. *)
Definition kept_or_pruned (dir : list string) (cutoff : Q) (names : list string)
    (fs fs' : gmap (list string) node) (p : list string) : Prop :=
  fs' !! p = fs !! p
  \/ (fs' !! p = None
      /\ exists n content mtime,
           n ∈ names /\ p = (dir ++ [n])%list
           /\ fs !! p = Some (File content mtime)
           /\ Qltb mtime cutoff = true).

(** ** Sample data *)

(** A file that sets one threshold only. *)
Definition one_threshold_file : gmap string json :=
  {[ "quality_thresholds" := JObj {[ "min_daily_transactions" := JInt 50 ]} ]}.

(** A file with a key that is no option. *)
Definition file_with_unknown_key : gmap string json :=
  {[ "colour" := JStr "blue" ]}.

(** Noon of 7 March 2024, noon of the day before, and one second past
    midnight of 7 March. *)
Definition noon : datetime :=
  {| year := 2024; month := 3; day := 7;
     hour := 12; minute := 0; second := 0; microsecond := 0 |}.

Definition noon_before : datetime :=
  {| year := 2024; month := 3; day := 6;
     hour := 12; minute := 0; second := 0; microsecond := 0 |}.

Definition just_after_midnight : datetime :=
  {| year := 2024; month := 3; day := 7;
     hour := 0; minute := 0; second := 1; microsecond := 0 |}.

(** A store that cannot be opened. *)
Definition unreachable : string -> exn + connection :=
  fun _ => inl (DatabaseError "unable to open database file").

(** A database with fifty rows for the day whose amount column is
    missing. *)
Definition no_amount_column : connection :=
  {| count_on _ := inr 50;
     max_amount_on _ := inl (DatabaseError "no such column: total_amount");
     latest_date := inr (CText "2024-03-07") |}.

(** A connection that gives fixed answers. *)
Definition answers (count : Z) (amount latest : cell) : connection :=
  {| count_on _ := inr count;
     max_amount_on _ := inr amount;
     latest_date := inr latest |}.

(** The clock at noon of 7 March 2024 in a zone on UTC, 1709812800
    seconds after the epoch, and the time [n] days before it. *)
Definition noon_clock : clock :=
  {| mkdir_time := 1709812800; stamp_now := noon; cutoff_now := noon |}.

Definition days_before_noon (n : Z) : Q := inject_Z (1709812800 - n * 86400).

(** A directory listed in the order of the map. *)
Definition identity_order (l : list string) : list string := l.

(** A thirty days old backup, and no database to copy. *)
Definition world_without_database : world :=
  {| files := {[ ["backups"] := Dir (days_before_noon 40);
                 ["backups"; "sales_backup_20240206_120000.db"]
                   := File "february" (days_before_noon 30) ]};
     backup_log := [];
     alerts := [] |}.

(** A database file and three backups, aged 29, 8 and 6 days. *)
Definition world_with_backups : world :=
  {| files := {[ ["sales_data.db"] := File "sales" (days_before_noon 0);
                 ["backups"] := Dir (days_before_noon 40);
                 ["backups"; "sales_backup_20240207_120000.db"]
                   := File "a" (days_before_noon 29);
                 ["backups"; "sales_backup_20240228_120000.db"]
                   := File "b" (days_before_noon 8);
                 ["backups"; "sales_backup_20240301_120000.db"]
                   := File "c" (days_before_noon 6) ]};
     backup_log := [];
     alerts := [] |}.

(** A configuration that asks for thirty days of retention. *)
Definition thirty_days_config : gmap string json :=
  <["retention_days" := JInt 30]> default_config.


(** ** The rest of the manager: [setup_logging] and [__init__] *)

(** [d.get(key, default)] *)
Definition dict_get (d : gmap string json) (key : string) (default : json)
    : json :=
  match d !! key with
  | Some v => v
  | None => default
  end.

(** [Path(self.config['log_path'])] *)
Definition log_directory (config : gmap string json) : exn + list string :=
  match getitem config "log_path" with
  | inl e => inl e
  | inr (JStr s) => inr (parts s)
  | inr v => inl (TypeError ("expected str, bytes or os.PathLike object, not "
                             ++ type_name v))
  end.

(** [f"sales_automation_{datetime.now().strftime('%Y%m%d')}.log"] *)
Definition log_filename (now : datetime) : string :=
  "sales_automation_" ++ zero_pad 4 (year now) ++ zero_pad 2 (month now)
  ++ zero_pad 2 (day now) ++ ".log".

(** [logging.FileHandler(p)]: the file is opened for appending when the
    handler is built, at clock time [t]; a missing file is created,
    empty, and a file that is there is left as it is. *)
Definition open_append (t : Q) (p : list string) : M world unit :=
  fun w =>
    let fs := files w in
    if is_dir fs p then (inl (errno "21" "Is a directory" p), w)
    else match fs !! p with
         | Some _ => (inr tt, w)
         | None =>
             if is_dir fs (removelast p)
             then (inr tt, set_files (insert p (File "" t)) w)
             else match fs !! removelast p with
                  | Some _ => (inl (errno "20" "Not a directory" p), w)
                  | None => (inl (errno "2" "No such file or directory" p), w)
                  end
         end.

(** automation_script.py, lines 78-93, as far as the files go: the
    directory is made at clock time [t_mkdir], the log file of the day is
    opened at [t_open]; [now] is the reading of line 83.  Nothing is
    caught here.  The records the logger is handed later are kept as a
    list ([log], [backup_log]), not as the content of this file. *)
Definition setup_logging (config : gmap string json) (t_mkdir t_open : Q)
    (now : datetime) : M world unit :=
  let* log_dir := lift (log_directory config) in
  let* _ := mkdir_exist_ok t_mkdir log_dir in
  let log_file := (log_dir ++ [log_filename now])%list in
  open_append t_open log_file.


(** The fields [__init__] sets: [self.config] and the database the ETL
    object is built for. *)
Record manager : Type := {
  self_config : gmap string json;
  self_etl : json }.

(** automation_script.py, lines 27-30.  Returns the manager and the
    lines [load_config] has printed; an exception of [setup_logging]
    leaves no manager. *)
Definition init (f : config_file) (t_mkdir t_open : Q) (now : datetime)
    : M world (manager * list string) :=
  let loaded := load_config f in
  let* _ := setup_logging loaded.1 t_mkdir t_open now in
  ret ({| self_config := loaded.1;
          self_etl := dict_get loaded.1 "database_path" (JStr "sales_data.db") |},
       loaded.2).

(** ** More vocabulary *)

(** The record the logger is handed for an issue: the handler logs at
    ERROR, the checks at WARNING. *)
Definition log_of_issue (s : string) : level * string :=
  (if is_failure_issue s then ERROR else WARNING, s).

(** A report whose log tells what its list tells, none of it the
    handler's. *)
Definition mirrored (d : report) : Prop :=
  log d = map (fun s => (WARNING, s)) (quality_issues d)
  /\ Forall (fun s => is_failure_issue s = false) (quality_issues d).

(** The microseconds since midnight, and the datetimes Python builds. *)
Definition time_of_day (t : datetime) : Z :=
  (hour t * 3600 + minute t * 60 + second t) * 1000000 + microsecond t.

Definition valid_time (t : datetime) : Prop :=
  0 <= hour t < 24 /\ 0 <= minute t < 60 /\ 0 <= second t < 60
  /\ 0 <= microsecond t < 1000000.

Definition valid_date (t : datetime) : Prop :=
  1000 <= year t <= 9999 /\ 1 <= month t <= 12
  /\ 1 <= day t <= days_in_month (year t) (month t).

(** Midnight of the day of [t]. *)
Definition midnight (t : datetime) : datetime :=
  {| year := year t; month := month t; day := day t;
     hour := 0; minute := 0; second := 0; microsecond := 0 |}.

(** Whether [%Y] prints [y] as four digits that read back as [y]. *)
Definition four_digits (y : Z) : bool :=
  match zero_pad 4 y with
  | String a (String b (String c (String d EmptyString))) =>
      match digit_value a, digit_value b, digit_value c, digit_value d with
      | Some a, Some b, Some c, Some d => a * 1000 + b * 100 + c * 10 + d =? y
      | _, _, _, _ => false
      end
  | _ => false
  end.

(** The day of [t], as [toordinal] counts it. *)
Definition ordinal (t : datetime) : Z := ymd2ord (year t) (month t) (day t).

(** ** More sample data *)

(** No file at all, under the working directory. *)
Definition empty_world : world :=
  {| files := ∅; backup_log := []; alerts := [] |}.

(** A file that puts the logs, or the backups, two levels down. *)
Definition nested_log_file : gmap string json :=
  {[ "log_path" := JStr "var/log" ]}.






(** The start of 7 March 2024, and six minutes later. *)
Definition start_of_day : datetime :=
  {| year := 2024; month := 3; day := 7;
     hour := 0; minute := 0; second := 0; microsecond := 0 |}.

Definition six_past_midnight : datetime :=
  {| year := 2024; month := 3; day := 7;
     hour := 0; minute := 6; second := 0; microsecond := 0 |}.

Definition a_second_later : datetime :=
  {| year := 2024; month := 3; day := 7;
     hour := 0; minute := 6; second := 1; microsecond := 0 |}.

Definition three_past_midnight : datetime :=
  {| year := 2024; month := 3; day := 7;
     hour := 0; minute := 3; second := 0; microsecond := 0 |}.

(** 0.1, as the double that holds it, and a file that takes it for the
    freshness threshold, in hours. *)
Definition a_tenth : Q := Eval vm_compute in round_double (1 # 10).

Definition six_minutes_file : gmap string json :=
  {[ "quality_thresholds" :=
       JObj {[ "min_daily_transactions" := JInt 100;
               "max_transaction_amount" := JInt 10000;
               "data_freshness_hours" := JFloat a_tenth "0.1" ]} ]}.


(** A file that sets the amount threshold only. *)
Definition amount_threshold_file : gmap string json :=
  {[ "quality_thresholds" := JObj {[ "max_transaction_amount" := JInt 5000 ]} ]}.

(** * Properties *)

(** ** Configuration *)

Lemma load_config_parsed user_config :
  (load_config (Parsed user_config)).1 = user_config ∪ default_config.
Proof. reflexivity. Qed.

Lemma load_config_without_file f :
  (forall user_config, f <> Parsed user_config) ->
  (load_config f).1 = default_config.
Proof.
  intros Hf. destruct f as [[e|]|e|u]; try reflexivity.
  exfalso. by apply (Hf u).
Qed.

(** The keys the file does not mention keep the default, the whole value
    with everything nested in it. *)
Lemma load_config_absent_key user_config k :
  user_config !! k = None ->
  (load_config (Parsed user_config)).1 !! k = default_config !! k.
Proof.
  intros Hk. rewrite load_config_parsed.
  rewrite lookup_union_r; done.
Qed.

(** The keys the file mentions take the value of the file, whole. *)
Lemma load_config_present_key user_config k v :
  user_config !! k = Some v ->
  (load_config (Parsed user_config)).1 !! k = Some v.
Proof.
  intros Hk. rewrite load_config_parsed.
  by apply lookup_union_Some_l.
Qed.

(** C2, as stated, fails: the file gives [quality_thresholds] with one
    of its three keys; [max_transaction_amount] is missing from the file,
    its documented default is 10000, and the loaded configuration has no
    value for it. *)
Lemma load_config_nested_default_counterexample :
  let path := ["quality_thresholds"; "max_transaction_amount"] in
  lookup_path path (JObj one_threshold_file) = None
  /\ lookup_path path (JObj default_config) = Some (JInt 10000)
  /\ lookup_path path (JObj (load_config (Parsed one_threshold_file)).1) = None.
Proof. vm_compute. done. Qed.

(** C2, amended: the merge is one level deep.  For every configuration
    file, a top-level key the file does not give has the documented
    default in the loaded configuration, and with it every option nested
    under that key; a top-level key the file gives has the file's value,
    whole, so no default is supplied inside it. *)
Theorem load_config_top_level_defaults (f : config_file) (k : string) :
  (forall user_config, f = Parsed user_config -> user_config !! k = None) ->
  (load_config f).1 !! k = default_config !! k
  /\ (forall path,
        lookup_path (k :: path) (JObj (load_config f).1)
        = lookup_path (k :: path) (JObj default_config))
  /\ (forall user_config k' v,
        f = Parsed user_config -> user_config !! k' = Some v ->
        (load_config f).1 !! k' = Some v).
Proof.
  intros Hk.
  assert (Htop : (load_config f).1 !! k = default_config !! k).
  { destruct f as [[e|]|e|u]; try reflexivity.
    apply load_config_absent_key. by apply Hk. }
  split; [exact Htop|]. split.
  - intros path. simpl. by rewrite Htop.
  - intros u k' v -> Hv. by apply load_config_present_key.
Qed.

Lemma load_config_top_level_defaults_witness :
  (load_config (Parsed one_threshold_file)).1 !! "schedule"
  = default_config !! "schedule".
Proof.
  apply (load_config_top_level_defaults (Parsed one_threshold_file) "schedule").
  intros u Hu. injection Hu as <-. vm_compute. reflexivity.
Defined.

(** C8, as stated, fails: ["colour"] is not among the option names, and
    the loaded configuration has an entry for it. *)
Lemma load_config_unknown_key_counterexample :
  ("colour" ∉ known_options)
  /\ file_with_unknown_key !! "colour" = Some (JStr "blue")
  /\ (load_config (Parsed file_with_unknown_key)).1 !! "colour"
     = Some (JStr "blue").
Proof.
  split; [|by vm_compute].
  unfold known_options. rewrite elem_of_dom. vm_compute.
  intros [x Hx]. discriminate.
Qed.

(** C8, amended: unknown keys are carried along, not dropped.  Every key
    of the file, an option name or not, is in the loaded configuration
    with the file's value; and an unknown key changes no option: the
    value of every option name is what the file without its unknown keys
    would give. *)
Theorem load_config_keeps_unknown_keys (user_config : gmap string json)
    (k : string) (v : json) :
  user_config !! k = Some v ->
  (load_config (Parsed user_config)).1 !! k = Some v
  /\ (forall k', k' ∈ known_options ->
        (load_config (Parsed user_config)).1 !! k'
        = (load_config (Parsed (filter (fun kv => kv.1 ∈ known_options)
                                       user_config))).1 !! k').
Proof.
  intros Hk. split; [by apply load_config_present_key|].
  intros k' Hk'. rewrite !load_config_parsed.
  destruct (user_config !! k') as [w|] eqn:Hw.
  - rewrite (lookup_union_Some_l _ _ _ w); [|done].
    symmetry. apply lookup_union_Some_l.
    by apply map_lookup_filter_Some.
  - rewrite !lookup_union_r; [done| |done].
    apply map_lookup_filter_None. left. done.
Qed.

Lemma load_config_keeps_unknown_keys_witness :
  (load_config (Parsed file_with_unknown_key)).1 !! "colour"
  = Some (JStr "blue").
Proof.
  apply (load_config_keeps_unknown_keys file_with_unknown_key "colour"
           (JStr "blue")).
  vm_compute. reflexivity.
Defined.

(** ** Validation: what one check does to the report *)

Lemma extend_empty s : extend s empty_report = s.
Proof. destruct s. unfold extend. simpl. by rewrite !app_nil_r. Qed.

Lemma Qltb_true a b : Qltb a b = true <-> (a < b)%Q.
Proof.
  unfold Qltb. rewrite negb_true_iff, <- not_true_iff_false, Qle_bool_iff.
  split; [apply Qnot_le_lt | apply Qlt_not_le].
Qed.

Lemma Qltb_false a b : Qltb a b = false <-> (b <= a)%Q.
Proof. unfold Qltb. by rewrite negb_false_iff, Qle_bool_iff. Qed.

(** ** Doubles: what rounding can and cannot do *)

Transparent round_double float_of_Z hours_of hours_old.

Lemma round_half_even_ge x K :
  (inject_Z K <= x)%Q -> K <= round_half_even x.
Proof.
  destruct x as [n d]. unfold Qle, round_half_even. cbn [Qnum Qden inject_Z]. intros H.
  assert (Hfl : K <= n / Zpos d) by (apply Z.div_le_lower_bound; lia).
  destruct (2 * (n mod Zpos d) ?= Zpos d); [destruct (Z.even _)| |]; lia.
Qed.

Lemma round_half_even_le x K :
  (x <= inject_Z K)%Q -> round_half_even x <= K.
Proof.
  destruct x as [n d]. unfold Qle, round_half_even. cbn [Qnum Qden inject_Z]. intros H.
  pose proof (Z.div_mod n (Zpos d) ltac:(lia)) as Hdm.
  pose proof (Z.mod_pos_bound n (Zpos d) ltac:(lia)) as Hr.
  destruct (2 * (n mod Zpos d) ?= Zpos d) eqn:Hc.
  - apply Z.compare_eq in Hc. destruct (Z.even _); nia.
  - nia.
  - rewrite Z.compare_gt_iff in Hc. nia.
Qed.

Lemma pow2_pos e : (0 < pow2 e)%Q.
Proof. apply Qpower_0_lt. reflexivity. Qed.

Lemma pow2_add a b : (pow2 (a + b) == pow2 a * pow2 b)%Q.
Proof. apply Qpower_plus. discriminate. Qed.

Lemma pow2_nonneg e : 0 <= e -> (pow2 e == inject_Z (2 ^ e))%Q.
Proof. intros H. unfold pow2. by rewrite (Zpower_Qpower 2 e H). Qed.

Lemma pow2_le a b : a <= b -> (pow2 a <= pow2 b)%Q.
Proof. intros H. apply Qpower_le_compat_l; [exact H|discriminate]. Qed.

Lemma pow2_succ e : (pow2 (e - 1) * 2 == pow2 e)%Q.
Proof.
  replace e with ((e - 1) + 1) at 2 by lia. rewrite pow2_add.
  reflexivity.
Qed.

Lemma log2_floor_spec n d : (pow2 (log2_floor n d) <= Zpos n # d)%Q.
Proof.
  unfold log2_floor.
  destruct (Qle_bool _ _) eqn:Hb; [by apply Qle_bool_iff|].
  clear Hb.
  pose proof (Z.log2_spec (Zpos n) ltac:(lia)) as [Hn _].
  pose proof (Z.log2_spec (Zpos d) ltac:(lia)) as [_ Hd].
  pose proof (Z.log2_nonneg (Zpos n)) as Hn0.
  pose proof (Z.log2_nonneg (Zpos d)) as Hd0.
  set (a := Z.log2 (Zpos n)) in *. set (b := Z.log2 (Zpos d)) in *.
  replace (a - b - 1) with (a - (b + 1)) by lia.
  unfold pow2. rewrite Qpower_minus by discriminate.
  fold (pow2 a). fold (pow2 (b + 1)).
  rewrite (pow2_nonneg a) by lia. rewrite (pow2_nonneg (b + 1)) by lia.
  replace (Z.succ b) with (b + 1) in Hd by lia.
  assert (H0 : 0 < 2 ^ (b + 1)) by lia.
  apply Qle_shift_div_r.
  - unfold Qlt. simpl. lia.
  - unfold Qle, Qmult. cbn [Qnum Qden inject_Z]. nia.
Qed.

(** The numbers [k * 2^j] with [k] up to [2^53] are doubles. *)
Lemma grid_split k j e :
  e <= j -> (inject_Z k * pow2 j == inject_Z (k * 2 ^ (j - e)) * pow2 e)%Q.
Proof.
  intros H. replace j with ((j - e) + e) at 1 by lia.
  rewrite pow2_add, (pow2_nonneg (j - e)) by lia.
  rewrite inject_Z_mult. ring.
Qed.

Lemma grid_below k j e :
  k <= 2 ^ 53 -> j < e ->
  (inject_Z k * pow2 j <= inject_Z (2 ^ 52) * pow2 e)%Q.
Proof.
  intros Hk Hj.
  assert (H1 : (pow2 j <= pow2 (e - 1))%Q) by (apply pow2_le; lia).
  pose proof (pow2_succ e) as H2. pose proof (pow2_pos j) as H3.
  assert (H4 : (inject_Z k <= inject_Z (2 ^ 53))%Q) by (by rewrite <- Zle_Qle).
  assert (H5 : (inject_Z k * pow2 j <= inject_Z (2 ^ 53) * pow2 j)%Q).
  { apply Qmult_le_compat_r; [exact H4|]. by apply Qlt_le_weak. }
  change (inject_Z (2 ^ 53)) with (2 * inject_Z (2 ^ 52))%Q in H5.
  set (P := inject_Z (2 ^ 52)) in *.
  assert (H6 : (0 <= P)%Q) by (unfold P; by apply Qlt_le_weak).
  assert (H7 : (P * pow2 j <= P * pow2 (e - 1))%Q).
  { rewrite !(Qmult_comm P). by apply Qmult_le_compat_r. }
  rewrite <- H2. lra.
Qed.

Lemma exponent_lower n d :
  let e := Z.max (log2_floor n d - 52) (-1074) in
  forall j, -1074 <= j -> j < e ->
  (inject_Z (2 ^ 52) * pow2 e <= Zpos n # d)%Q.
Proof.
  intros e j Hj He.
  assert (e = log2_floor n d - 52) as -> by lia.
  rewrite <- (pow2_nonneg 52) by lia. rewrite <- pow2_add.
  replace (52 + (log2_floor n d - 52)) with (log2_floor n d) by lia.
  apply log2_floor_spec.
Qed.

Lemma nearest_double_ge n d k j :
  k <= 2 ^ 53 -> -1074 <= j ->
  (inject_Z k * pow2 j <= Zpos n # d)%Q ->
  (inject_Z k * pow2 j <= nearest_double n d)%Q.
Proof.
  intros Hk Hj Hle. unfold nearest_double. rewrite Qred_correct.
  pose proof (exponent_lower n d) as Hlow. cbv zeta in Hlow.
  set (e := Z.max (log2_floor n d - 52) (-1074)) in *.
  pose proof (pow2_pos e) as Hpos.
  set (q := (Zpos n # d)%Q) in *.
  destruct (Z_le_gt_dec e j) as [Hej|Hej].
  - rewrite (grid_split k j e Hej) in *.
    apply Qmult_le_compat_r; [|by apply Qlt_le_weak].
    rewrite <- Zle_Qle. apply round_half_even_ge.
    by apply Qle_shift_div_l.
  - specialize (Hlow j Hj ltac:(lia)).
    eapply Qle_trans; [apply (grid_below k j e Hk); lia|].
    apply Qmult_le_compat_r; [|by apply Qlt_le_weak].
    rewrite <- Zle_Qle. apply round_half_even_ge.
    by apply Qle_shift_div_l.
Qed.

Lemma nearest_double_le n d k j :
  k <= 2 ^ 53 -> -1074 <= j ->
  (Zpos n # d <= inject_Z k * pow2 j)%Q ->
  (nearest_double n d <= inject_Z k * pow2 j)%Q.
Proof.
  intros Hk Hj Hle. unfold nearest_double. rewrite Qred_correct.
  pose proof (exponent_lower n d) as Hlow. cbv zeta in Hlow.
  set (e := Z.max (log2_floor n d - 52) (-1074)) in *.
  pose proof (pow2_pos e) as Hpos.
  set (q := (Zpos n # d)%Q) in *.
  destruct (Z_le_gt_dec e j) as [Hej|Hej].
  - rewrite (grid_split k j e Hej) in *.
    apply Qmult_le_compat_r; [|by apply Qlt_le_weak].
    rewrite <- Zle_Qle. apply round_half_even_le.
    by apply Qle_shift_div_r.
  - specialize (Hlow j Hj ltac:(lia)).
    pose proof (grid_below k j e Hk ltac:(lia)) as Hb.
    eapply Qle_trans; [|exact Hle].
    eapply Qle_trans; [|exact Hlow].
    apply Qmult_le_compat_r; [|by apply Qlt_le_weak].
    rewrite <- Zle_Qle. apply round_half_even_le.
    apply Qle_shift_div_r; [exact Hpos|].
    eapply Qle_trans; [exact Hle|exact Hb].
Qed.

Lemma round_double_le q k j :
  (0 <= q)%Q -> 0 <= k <= 2 ^ 53 -> -1074 <= j ->
  (q <= inject_Z k * pow2 j)%Q ->
  (round_double q <= inject_Z k * pow2 j)%Q.
Proof.
  intros Hq [Hk0 Hk] Hj Hle. destruct q as [[|n|n] d]; unfold round_double; simpl.
  - apply Qmult_le_0_compat; [by rewrite <- (Zle_Qle 0)|].
    apply Qlt_le_weak, pow2_pos.
  - by apply nearest_double_le.
  - by destruct Hq.
Qed.

Lemma round_double_ge q k j :
  (0 <= q)%Q -> k <= 2 ^ 53 -> -1074 <= j ->
  (inject_Z k * pow2 j <= q)%Q ->
  (inject_Z k * pow2 j <= round_double q)%Q.
Proof.
  intros Hq Hk Hj Hle. destruct q as [[|n|n] d]; unfold round_double; simpl.
  - eapply Qle_trans; [exact Hle|]. by unfold Qle.
  - by apply nearest_double_ge.
  - by destruct Hq.
Qed.

Lemma round_double_nonneg q : (0 <= q)%Q -> (0 <= round_double q)%Q.
Proof.
  intros Hq.
  assert (H : (inject_Z 0 * pow2 0 <= round_double q)%Q).
  { apply round_double_ge; [exact Hq|lia|lia|]. by rewrite Qmult_0_l. }
  by rewrite Qmult_0_l in H.
Qed.

Lemma round_double_opp q : round_double (- q) = (- round_double q)%Q.
Proof. destruct q as [[|n|n] d]; unfold round_double; simpl; try done.
  destruct (nearest_double n d) as [a b]. unfold Qopp. simpl.
  by rewrite Pos2Z.opp_neg || by destruct a. Qed.



Lemma pow2_scale j : 0 <= j -> (pow2 (- j) * inject_Z (2 ^ j) == 1)%Q.
Proof.
  intros H. rewrite <- (pow2_nonneg j H), <- pow2_add.
  by replace (- j + j) with 0 by lia.
Qed.

(** Rounding moves a number by less than the step of any grid of
    doubles that reaches it. *)
Lemma round_double_upper q j :
  (0 <= q)%Q -> 0 <= j <= 1074 ->
  (q * inject_Z (2 ^ j) <= inject_Z (2 ^ 53 - 1))%Q ->
  (round_double q <= q + pow2 (- j))%Q.
Proof.
  intros Hq Hj Hb.
  pose proof (pow2_scale j ltac:(lia)) as Hs. pose proof (pow2_pos (- j)) as Hp.
  set (u := pow2 (- j)) in *. set (x := (q * inject_Z (2 ^ j))%Q) in *.
  assert (Hx : (0 <= x)%Q).
  { apply Qmult_le_0_compat; [exact Hq|]. rewrite <- (Zle_Qle 0). lia. }
  pose proof (Qle_ceiling x) as H1. pose proof (Qceiling_lt x) as H2.
  set (k := Qceiling x) in *.
  assert (Hk0 : 0 <= k).
  { rewrite (Zle_Qle 0). by eapply Qle_trans. }
  assert (Hk : k <= 2 ^ 53).
  { assert (k - 1 < 2 ^ 53 - 1); [|lia].
    rewrite Zlt_Qlt. by eapply Qlt_le_trans. }
  assert (Hqx : (q == x * u)%Q).
  { unfold x. rewrite <- Qmult_assoc, (Qmult_comm _ u), Hs. ring. }
  assert (Hle : (q <= inject_Z k * u)%Q).
  { rewrite Hqx. apply Qmult_le_compat_r; [exact H1|by apply Qlt_le_weak]. }
  eapply Qle_trans; [apply (round_double_le q k (- j) Hq); [lia|lia|exact Hle]|].
  fold u.
  unfold Z.sub in H2. rewrite inject_Z_plus, inject_Z_opp in H2.
  change (inject_Z 1) with 1%Q in H2.
  assert (H3 : (inject_Z k <= x + 1)%Q) by lra.
  assert (H4 : (inject_Z k * u <= (x + 1) * u)%Q).
  { apply Qmult_le_compat_r; [exact H3|by apply Qlt_le_weak]. }
  lra.
Qed.

Lemma round_double_lower q j :
  (0 <= q)%Q -> 0 <= j <= 1074 ->
  (q * inject_Z (2 ^ j) <= inject_Z (2 ^ 53))%Q ->
  (q - pow2 (- j) <= round_double q)%Q.
Proof.
  intros Hq Hj Hb.
  pose proof (pow2_scale j ltac:(lia)) as Hs. pose proof (pow2_pos (- j)) as Hp.
  set (u := pow2 (- j)) in *. set (x := (q * inject_Z (2 ^ j))%Q) in *.
  pose proof (Qfloor_le x) as H1. pose proof (Qlt_floor x) as H2.
  set (k := Qfloor x) in *.
  assert (Hk : k <= 2 ^ 53).
  { rewrite Zle_Qle. by eapply Qle_trans. }
  assert (Hqx : (q == x * u)%Q).
  { unfold x. rewrite <- Qmult_assoc, (Qmult_comm _ u), Hs. ring. }
  assert (Hle : (inject_Z k * u <= q)%Q).
  { rewrite Hqx. apply Qmult_le_compat_r; [exact H1|by apply Qlt_le_weak]. }
  eapply Qle_trans; [|apply (round_double_ge q k (- j) Hq); [lia|lia|exact Hle]].
  fold u.
  rewrite inject_Z_plus in H2. change (inject_Z 1) with 1%Q in H2.
  assert (H3 : (x - 1 <= inject_Z k)%Q) by lra.
  assert (H4 : ((x - 1) * u <= inject_Z k * u)%Q).
  { apply Qmult_le_compat_r; [exact H3|by apply Qlt_le_weak]. }
  lra.
Qed.

Ltac grid_constants :=
  change (pow2 (- (13))) with (1 # 8192)%Q in *;
  change (pow2 (- (14))) with (1 # 16384)%Q in *;
  change (inject_Z (2 ^ 13)) with (8192 # 1)%Q in *;
  change (inject_Z (2 ^ 14)) with (16384 # 1)%Q in *;
  change (inject_Z (2 ^ 39)) with (549755813888 # 1)%Q in *;
  change (inject_Z (2 ^ 53 - 1)) with (9007199254740991 # 1)%Q in *;
  change (inject_Z (2 ^ 53)) with (9007199254740992 # 1)%Q in *;
  change (inject_Z 3600) with (3600 # 1)%Q in *.

(** One second more of age is a greater number of hours, rounding
    notwithstanding. *)
Lemma hours_one_second_later s s' :
  (0 <= s)%Q -> (s <= inject_Z (2 ^ 39))%Q -> (s' == s + 1)%Q ->
  (hours_of s < hours_of s')%Q.
Proof.
  intros H0 Hs Hs'. unfold hours_of.
  pose proof (round_double_upper s 13 H0 ltac:(lia)) as Ha.
  pose proof (round_double_nonneg s H0) as Ha0.
  assert (H1 : (0 <= s')%Q) by lra.
  pose proof (round_double_lower s' 13 H1 ltac:(lia)) as Hb.
  pose proof (round_double_upper s' 13 H1 ltac:(lia)) as Hb'.
  grid_constants.
  specialize (Ha ltac:(lra)). specialize (Hb ltac:(lra)).
  specialize (Hb' ltac:(lra)).
  set (a := round_double s) in *. set (b := round_double s') in *.
  assert (HA : (0 <= a / (3600 # 1))%Q) by (apply Qle_shift_div_l; lra).
  assert (HB : (0 <= b / (3600 # 1))%Q) by (apply Qle_shift_div_l; lra).
  assert (HAB : (a / (3600 # 1) + (1 # 4096) < b / (3600 # 1))%Q).
  { apply Qlt_shift_div_l; [reflexivity|].
    assert (E : ((a / (3600 # 1) + (1 # 4096)) * (3600 # 1)
                 == a + (3600 # 4096))%Q) by (field; discriminate).
    rewrite E. lra. }
  assert (Ha3 : (a / (3600 # 1) <= 549755813890 # 3600)%Q).
  { apply Qle_shift_div_r; [reflexivity|]. lra. }
  assert (Hb3 : (b / (3600 # 1) <= 549755813890 # 3600)%Q).
  { apply Qle_shift_div_r; [reflexivity|]. lra. }
  pose proof (round_double_upper _ 14 HA ltac:(lia)) as Hu.
  pose proof (round_double_lower _ 14 HB ltac:(lia)) as Hl.
  grid_constants.
  specialize (Hu ltac:(lra)). specialize (Hl ltac:(lra)).
  lra.
Qed.

(** A double is its own rounding. *)
Lemma round_double_exact q k :
  0 <= k <= 2 ^ 53 -> (q == inject_Z k)%Q -> (round_double q == inject_Z k)%Q.
Proof.
  intros Hk Hq.
  assert (Hone : (inject_Z k * pow2 0 == inject_Z k)%Q).
  { change (pow2 0) with 1%Q. apply Qmult_1_r. }
  assert (H0 : (0 <= q)%Q).
  { rewrite Hq. rewrite <- (Zle_Qle 0). lia. }
  pose proof (round_double_le q k 0 H0 Hk ltac:(lia)) as H1.
  pose proof (round_double_ge q k 0 H0 ltac:(lia) ltac:(lia)) as H2.
  rewrite Hone in H1, H2. apply Qle_antisym; [apply H1|apply H2]; rewrite Hq;
    apply Qle_refl.
Qed.

(** A whole number of hours of age is that number. *)
Lemma hours_exact s m :
  (s == inject_Z m * inject_Z 3600)%Q -> (0 <= s)%Q ->
  (s <= inject_Z (2 ^ 39))%Q ->
  (hours_of s == inject_Z m)%Q.
Proof.
  intros Hs H0 Hb. unfold hours_of.
  rewrite <- inject_Z_mult in Hs.
  assert (Hm : 0 <= m * 3600 <= 2 ^ 39).
  { split; [rewrite (Zle_Qle 0)|rewrite Zle_Qle]; by rewrite <- Hs. }
  pose proof (round_double_exact s (m * 3600) ltac:(lia) Hs) as H1.
  apply round_double_exact; [lia|].
  rewrite H1, inject_Z_mult. field.
Qed.

(** Less than a day is at most 24 hours; more than a day, by a
    microsecond or more, is more than 24 hours. *)
Lemma hours_within_day s :
  (0 <= s)%Q -> (s <= inject_Z 86400)%Q -> (hours_of s <= inject_Z 24)%Q.
Proof.
  intros H0 Hs. unfold hours_of.
  assert (Hone : forall k, (inject_Z k * pow2 0 == inject_Z k)%Q).
  { intros k. change (pow2 0) with 1%Q. apply Qmult_1_r. }
  pose proof (round_double_le s 86400 0 H0 ltac:(lia) ltac:(lia)) as H1.
  rewrite Hone in H1. specialize (H1 Hs).
  pose proof (round_double_nonneg s H0) as H2.
  set (a := round_double s) in *.
  change (inject_Z 86400) with (86400 # 1)%Q in *.
  change (inject_Z 3600) with (3600 # 1)%Q in *.
  assert (HA : (0 <= a / (3600 # 1))%Q) by (apply Qle_shift_div_l; lra).
  pose proof (round_double_le _ 24 0 HA ltac:(lia) ltac:(lia)) as H3.
  rewrite Hone in H3. apply H3.
  change (inject_Z 24) with (24 # 1)%Q.
  apply Qle_shift_div_r; [reflexivity|]. lra.
Qed.

Lemma hours_after_day s :
  (inject_Z 86400 + (1 # 1000000) <= s)%Q -> (inject_Z 24 < hours_of s)%Q.
Proof.
  intros Hs. unfold hours_of.
  change (inject_Z 86400) with (86400 # 1)%Q in *.
  change (inject_Z 3600) with (3600 # 1)%Q in *.
  change (inject_Z 24) with (24 # 1)%Q in *.
  assert (H0 : (0 <= s)%Q) by lra.
  pose proof (round_double_ge s (86400 * 2 ^ 20 + 1) (- (20)) H0
                ltac:(lia) ltac:(lia)) as H1.
  change (inject_Z (86400 * 2 ^ 20 + 1) * pow2 (- (20)))%Q
    with ((90596966401 # 1) * (1 # 1048576))%Q in H1.
  specialize (H1 ltac:(lra)).
  set (a := round_double s) in *.
  assert (HA : ((103079215105 # 1) * (1 # 4294967296) <= a / (3600 # 1))%Q).
  { apply Qle_shift_div_l; [reflexivity|]. lra. }
  assert (HA0 : (0 <= a / (3600 # 1))%Q) by lra.
  pose proof (round_double_ge _ (24 * 2 ^ 32 + 1) (- (32)) HA0
                ltac:(lia) ltac:(lia)) as H2.
  change (inject_Z (24 * 2 ^ 32 + 1) * pow2 (- (32)))%Q
    with ((103079215105 # 1) * (1 # 4294967296))%Q in H2.
  specialize (H2 HA). lra.
Qed.


Lemma hours_old_eq now latest :
  hours_old now latest = hours_of (total_seconds now latest).
Proof. reflexivity. Qed.

Opaque round_double float_of_Z hours_of hours_old.

Ltac crush_check :=
  intros s;
  repeat (unfold bind, lift, ret, raise, append, logger, extend; simpl);
  repeat case_match; simplify_eq/=;
  try (destruct s; simpl; by rewrite ?app_nil_r).

Lemma check_transaction_count_appends config conn today :
  appends_only (check_transaction_count config conn today).
Proof. unfold check_transaction_count. crush_check. Qed.

Lemma check_transaction_amounts_appends config conn today :
  appends_only (check_transaction_amounts config conn today).
Proof. unfold check_transaction_amounts. crush_check. Qed.

Lemma check_freshness_appends config conn now :
  appends_only (check_freshness config conn now).
Proof. unfold check_freshness. crush_check. Qed.

Ltac crush_run :=
  repeat (unfold bind, lift, ret, raise, append, logger, empty_report; simpl);
  repeat case_match; simplify_eq/=.

Lemma check_transaction_count_raises config conn today :
  raises_before_append (check_transaction_count config conn today).
Proof.
  intros e d. unfold check_transaction_count.
  crush_run; intros ?; by simplify_eq.
Qed.

Lemma check_transaction_amounts_raises config conn today :
  raises_before_append (check_transaction_amounts config conn today).
Proof.
  intros e d. unfold check_transaction_amounts.
  crush_run; intros ?; by simplify_eq.
Qed.

Lemma check_freshness_raises config conn now :
  raises_before_append (check_freshness config conn now).
Proof.
  intros e d. unfold check_freshness.
  crush_run; intros ?; by simplify_eq.
Qed.

(** Each check adds at most one issue, of its own kind. *)
Lemma check_transaction_count_issues config conn today :
  let l := quality_issues (check_transaction_count config conn today empty_report).2 in
  l = [] \/ exists n text, l = [low_count_issue n text].
Proof. unfold check_transaction_count. crush_run; eauto. Qed.

Lemma check_transaction_amounts_issues config conn today :
  let l := quality_issues (check_transaction_amounts config conn today empty_report).2 in
  l = [] \/ exists a, l = [high_amount_issue a].
Proof. unfold check_transaction_amounts. crush_run; eauto. Qed.

Lemma check_freshness_issues config conn now :
  let l := quality_issues (check_freshness config conn now empty_report).2 in
  l = [] \/ exists h text, l = [stale_issue h text].
Proof. unfold check_freshness. crush_run; eauto. Qed.

(** The shape of the returned list: the issues of the checks in the
    order volume, outlier, freshness, cut short after the check that
    raised, where the handler's issue stands. *)
Lemma validate_connect_fails config sc now0 now1 e :
  connect sc config = inl e ->
  validate_data_quality config sc now0 now1
  = ([failed_issue e], [(ERROR, failed_issue e)]).
Proof.
  intros H. unfold validate_data_quality, checks, bind, lift. by rewrite H.
Qed.

Lemma validate_shape config sc now0 now1 conn :
  connect sc config = inr conn ->
  let today := strftime_Ymd now0 in
  let c1 := check_transaction_count config conn today empty_report in
  let c2 := check_transaction_amounts config conn today empty_report in
  let c3 := check_freshness config conn now1 empty_report in
  (validate_data_quality config sc now0 now1).1
  = (quality_issues c1.2 ++
     match c1.1 with
     | inl e => [failed_issue e]
     | inr _ =>
         quality_issues c2.2 ++
         match c2.1 with
         | inl e => [failed_issue e]
         | inr _ => quality_issues c3.2 ++ handler_issue c3.1
         end
     end)%list.
Proof.
  intros H today c1 c2 c3.
  unfold validate_data_quality, checks, bind, lift. rewrite H. fold today.
  rewrite (check_transaction_count_appends config conn today empty_report).
  fold c1. destruct c1 as [[e1|u1] d1]; simpl.
  { destruct d1; done. }
  rewrite (check_transaction_amounts_appends config conn today).
  fold c2. destruct c2 as [[e2|u2] d2]; simpl.
  { by rewrite <- app_assoc. }
  rewrite (check_freshness_appends config conn now1).
  fold c3. destruct c3 as [[e3|u3] d3]; simpl.
  - by rewrite <- !app_assoc.
  - by rewrite app_nil_r, <- !app_assoc.
Qed.

Lemma issue_kinds_differ :
  (forall n t, is_outlier_issue (low_count_issue n t) = false
               /\ is_stale_issue (low_count_issue n t) = false)
  /\ (forall a, is_volume_issue (high_amount_issue a) = false
                /\ is_stale_issue (high_amount_issue a) = false)
  /\ (forall h t, is_volume_issue (stale_issue h t) = false
                  /\ is_outlier_issue (stale_issue h t) = false)
  /\ (forall e, is_volume_issue (failed_issue e) = false
                /\ is_outlier_issue (failed_issue e) = false
                /\ is_stale_issue (failed_issue e) = false).
Proof. repeat split; reflexivity. Qed.

(** What follows the volume check in the returned list holds no volume
    issue; likewise for the other kinds. *)
Lemma count_issues_kind config conn today (P : string -> Prop) :
  (forall n t, P (low_count_issue n t)) ->
  Forall P (quality_issues (check_transaction_count config conn today empty_report).2).
Proof.
  intros HP.
  destruct (check_transaction_count_issues config conn today) as [->|(n & t & ->)];
    repeat constructor. apply HP.
Qed.

Lemma amount_issues_kind config conn today (P : string -> Prop) :
  (forall a, P (high_amount_issue a)) ->
  Forall P (quality_issues (check_transaction_amounts config conn today empty_report).2).
Proof.
  intros HP.
  destruct (check_transaction_amounts_issues config conn today) as [->|(a & ->)];
    repeat constructor. apply HP.
Qed.




(** ** C1: the validator always returns *)

(** C1.  For every configuration, database and clock,
    [validate_data_quality] returns a list: the issues the checks have
    added, followed, when the body raised [e], by the one text
    "Data quality check failed: " and [str(e)]; nothing escapes.  When
    the store cannot be opened, or the first query fails, with
    exception [e], the list has that one element. *)
Theorem validate_data_quality_always_returns
    (config : gmap string json) (sc : string -> exn + connection)
    (now0 now1 : datetime) :
  let body := checks config sc now0 now1 empty_report in
  (validate_data_quality config sc now0 now1).1
  = (quality_issues body.2
     ++ match body.1 with
        | inl e => [("Data quality check failed: " ++ str_exn e)%string]
        | inr _ => []
        end)%list
  /\ forall e,
       (connect sc config = inl e
        \/ exists conn, connect sc config = inr conn
                        /\ count_on conn (strftime_Ymd now0) = inl e) ->
       (validate_data_quality config sc now0 now1).1
       = [("Data quality check failed: " ++ str_exn e)%string].
Proof.
  split.
  - unfold validate_data_quality.
    destruct (checks config sc now0 now1 empty_report) as [[e|u] r]; simpl.
    + reflexivity.
    + by rewrite app_nil_r.
  - intros e [H|(conn & H & Hq)].
    + by rewrite (validate_connect_fails _ _ _ _ _ H).
    + rewrite (validate_shape _ _ _ _ _ H).
      unfold check_transaction_count at 1 2, bind, lift. rewrite Hq. reflexivity.
Qed.

(** A store that cannot be opened, and a configuration without the
    path of the store: the text is that of the exception. *)
Lemma validate_data_quality_always_returns_witness :
  (validate_data_quality default_config unreachable noon noon).1
  = ["Data quality check failed: unable to open database file"]
  /\ (validate_data_quality ∅ unreachable noon noon).1
     = ["Data quality check failed: 'database_path'"].
Proof.
  split.
  - apply (proj2 (validate_data_quality_always_returns
                    default_config unreachable noon noon)
                  (DatabaseError "unable to open database file")).
    left. reflexivity.
  - apply (proj2 (validate_data_quality_always_returns
                    ∅ unreachable noon noon)
                  (KeyError "database_path")).
    left. reflexivity.
Defined.

(** ** C9: a failure after earlier issues *)

(** C9.  When the volume check has completed, leaving the report [s1],
    and a later step raises [e] (the outlier check, or the freshness
    check after the outlier check has completed with report [s2]), the
    returned list is the issues added so far, in the order they were
    added, followed by the one issue that describes [e]. *)
Theorem failure_follows_earlier_issues
    (config : gmap string json) (sc : string -> exn + connection)
    (now0 now1 : datetime) (conn : connection) (s1 : report) :
  connect sc config = inr conn ->
  check_transaction_count config conn (strftime_Ymd now0) empty_report
  = (inr tt, s1) ->
  (forall e s2,
      check_transaction_amounts config conn (strftime_Ymd now0) s1 = (inl e, s2) ->
      (validate_data_quality config sc now0 now1).1
      = (quality_issues s1 ++ [failed_issue e])%list)
  /\ (forall s2 e s3,
        check_transaction_amounts config conn (strftime_Ymd now0) s1 = (inr tt, s2) ->
        check_freshness config conn now1 s2 = (inl e, s3) ->
        (validate_data_quality config sc now0 now1).1
        = (quality_issues s2 ++ [failed_issue e])%list
        /\ exists l, quality_issues s2 = (quality_issues s1 ++ l)%list).
Proof.
  intros Hc H1.
  pose proof (validate_shape config sc now0 now1 conn Hc) as Hs. simpl in Hs.
  rewrite H1 in Hs. simpl in Hs. split.
  - intros e s2 H2.
    rewrite check_transaction_amounts_appends in H2.
    destruct (check_transaction_amounts config conn (strftime_Ymd now0) empty_report)
      as [r2 d2] eqn:E2.
    simpl in *. injection H2 as -> _.
    rewrite (check_transaction_amounts_raises _ _ _ _ _ E2) in Hs. exact Hs.
  - intros s2 e s3 H2 H3.
    rewrite check_transaction_amounts_appends in H2.
    rewrite check_freshness_appends in H3.
    destruct (check_transaction_amounts config conn (strftime_Ymd now0) empty_report)
      as [r2 d2] eqn:E2.
    destruct (check_freshness config conn now1 empty_report) as [r3 d3] eqn:E3.
    simpl in *. injection H2 as -> <-. injection H3 as -> _.
    rewrite (check_freshness_raises _ _ _ _ _ E3) in Hs. simpl in Hs.
    rewrite Hs. split; [by rewrite app_assoc | by eexists].
Qed.

Lemma failure_follows_earlier_issues_witness :
  (validate_data_quality default_config (fun _ => inr no_amount_column) noon noon).1
  = ["Low transaction count today: 50 (expected: >100)";
     "Data quality check failed: no such column: total_amount"].
Proof.
  pose proof (failure_follows_earlier_issues default_config
                (fun _ => inr no_amount_column) noon noon no_amount_column
                {| quality_issues := ["Low transaction count today: 50 (expected: >100)"];
                   log := [(WARNING, "Low transaction count today: 50 (expected: >100)")] |}
                eq_refl eq_refl) as [H _].
  exact (H (DatabaseError "no such column: total_amount") _ eq_refl).
Defined.

(** ** C4: the volume check *)



(** ** C5: the outlier check *)





(** Beyond [2^53] the printed amount is that of the double: the odd
    integer is printed as its even neighbour. *)
Lemma large_integer_amount_is_rounded :
  (validate_data_quality default_config
     (fun _ => inr (answers 100 (CInt 9007199254740993) CNull)) noon noon).1
  = ["Unusually high transaction detected: $9,007,199,254,740,992.00"].
Proof. vm_compute. reflexivity. Qed.

(** ** C6: the freshness check *)

Lemma check_freshness_no_date config conn now :
  latest_date conn = inr CNull ->
  check_freshness config conn now empty_report = (inr tt, empty_report).
Proof. intros H. unfold check_freshness, bind, lift. by rewrite H. Qed.

Lemma check_freshness_dated config conn now s d v t text :
  latest_date conn = inr (CText s) ->
  strptime_Ymd s = inr d ->
  threshold config "data_freshness_hours" = inr v ->
  to_number v = Some (t, text) ->
  let age := hours_old now d in
  check_freshness config conn now empty_report
  = if Qltb t age
    then (inr tt, {| quality_issues := [stale_issue age text];
                     log := [(WARNING, stale_issue age text)] |})
    else (inr tt, empty_report).
Proof.
  intros Hl Hp Hthr Hnum age.
  unfold check_freshness, bind, lift. rewrite Hl. simpl.
  destruct s as [|c s']; [discriminate Hp|]. simpl.
  rewrite Hp, Hthr. simpl. rewrite Hnum. fold age. by case_match.
Qed.

(** C6, as stated, fails for a row that carries its time of day.  The
    latest row is stamped noon of 6 March, the clock reads noon of
    7 March, the threshold is 24: the row is 24 hours old to the second,
    and the returned list holds an issue, the handler's, because
    [strptime] with the format '%Y-%m-%d' refuses the text. *)
Lemma freshness_timestamp_counterexample :
  let stored := "2024-03-06 12:00:00" in
  str_datetime noon_before = stored
  /\ (total_seconds noon noon_before / inject_Z 3600 == inject_Z 24)%Q
  /\ threshold default_config "data_freshness_hours" = inr (JInt 24)
  /\ (validate_data_quality default_config
        (fun _ => inr (answers 100 CNull (CText stored))) noon noon).1
     = ["Data quality check failed: unconverted data remains:  12:00:00"].
Proof. vm_compute. repeat split. Qed.

Lemma validate_after_two_checks config sc now0 now1 conn s1 s2 :
  connect sc config = inr conn ->
  check_transaction_count config conn (strftime_Ymd now0) empty_report
  = (inr tt, s1) ->
  check_transaction_amounts config conn (strftime_Ymd now0) s1 = (inr tt, s2) ->
  let c3 := check_freshness config conn now1 empty_report in
  (validate_data_quality config sc now0 now1).1
  = (quality_issues s2 ++ quality_issues c3.2 ++ handler_issue c3.1)%list.
Proof.
  intros Hc H1 H2 c3.
  pose proof (validate_shape config sc now0 now1 conn Hc) as Hs. simpl in Hs.
  rewrite check_transaction_amounts_appends in H2.
  rewrite H1 in Hs. simpl in Hs.
  destruct (check_transaction_amounts config conn (strftime_Ymd now0) empty_report)
    as [r2 d2].
  simpl in *. injection H2 as -> <-. simpl.
  by rewrite app_assoc in Hs.
Qed.

(** C6, amended: the date is stored as 'YYYY-MM-DD' text and the age is
    counted from the start of that day, as the float
    [total_seconds() / 3600] of line 164.  When the volume and outlier
    checks have completed (report [s2], which holds no freshness
    issue):
    - an empty table answers the latest-date query with NULL, and on
      NULL the check is skipped: the returned list is that of [s2];
    - for a latest date [s] that [strptime] reads as [d] and a threshold
      that is the number [t]: a check at [now1], when the age is the
      threshold (the float equals [t]; so it is when the threshold is a
      whole number of hours and the age is that to the microsecond),
      adds nothing; the check one second later adds, last in the list,
      "Data is stale: <age, one decimal place> hours old (threshold:
      <t>h)".  The age is at most [2^39] seconds, as it is between any
      two dates of the calendar. *)
Theorem freshness_check_boundary
    (config : gmap string json) (sc : string -> exn + connection)
    (now0 now1 : datetime) (conn : connection) (s1 s2 : report) :
  connect sc config = inr conn ->
  check_transaction_count config conn (strftime_Ymd now0) empty_report
  = (inr tt, s1) ->
  check_transaction_amounts config conn (strftime_Ymd now0) s1 = (inr tt, s2) ->
  Forall (fun s => is_stale_issue s = false) (quality_issues s2)
  /\ latest_date (table_connection []) = inr CNull
  /\ (latest_date conn = inr CNull ->
        (validate_data_quality config sc now0 now1).1 = quality_issues s2)
  /\ (forall s d v t text later,
        latest_date conn = inr (CText s) ->
        strptime_Ymd s = inr d ->
        threshold config "data_freshness_hours" = inr v ->
        to_number v = Some (t, text) ->
        (0 <= total_seconds now1 d)%Q ->
        (total_seconds now1 d <= inject_Z (2 ^ 39))%Q ->
        (total_seconds later d == total_seconds now1 d + 1)%Q ->
        ((hours_old now1 d == t)%Q
         \/ ((total_seconds now1 d == t * inject_Z 3600)%Q
             /\ exists m, v = JInt m)) ->
        (validate_data_quality config sc now0 now1).1 = quality_issues s2
        /\ (validate_data_quality config sc now0 later).1
           = (quality_issues s2
              ++ [("Data is stale: " ++ format_f false 1 (hours_old later d)
                   ++ " hours old (threshold: " ++ text ++ "h)")%string])%list).
Proof.
  intros Hc H1 H2.
  assert (Hkind : Forall (fun s => is_stale_issue s = false) (quality_issues s2)).
  { pose proof (count_issues_kind config conn (strftime_Ymd now0)
                  (fun s => is_stale_issue s = false)
                  (fun n t => proj2 (proj1 issue_kinds_differ n t))) as Hk1.
    pose proof (amount_issues_kind config conn (strftime_Ymd now0)
                  (fun s => is_stale_issue s = false)
                  (fun a => proj2 (proj1 (proj2 issue_kinds_differ) a))) as Hk2.
    pose proof H2 as H2'. rewrite check_transaction_amounts_appends in H2'.
    rewrite H1 in Hk1. simpl in Hk1.
    destruct (check_transaction_amounts config conn (strftime_Ymd now0)
                empty_report) as [r2 d2].
    simpl in *. injection H2' as -> <-. simpl. by apply Forall_app. }
  split; [exact Hkind|]. split; [reflexivity|]. split.
  - intros Hl. rewrite (validate_after_two_checks _ _ _ _ _ _ _ Hc H1 H2).
    rewrite (check_freshness_no_date _ _ _ Hl). simpl. by rewrite app_nil_r.
  - intros s d v t text later Hl Hp Hthr Hnum H0 Hb Hlater Hage.
    assert (Heq : (hours_old now1 d == t)%Q).
    { destruct Hage as [H|[H [m ->]]]; [exact H|].
      simpl in Hnum. injection Hnum as <- <-.
      rewrite hours_old_eq. by apply hours_exact. }
    assert (Hlt : (hours_old now1 d < hours_old later d)%Q).
    { rewrite !hours_old_eq. by apply hours_one_second_later. }
    split.
    + rewrite (validate_after_two_checks _ _ _ _ _ _ _ Hc H1 H2).
      pose proof (check_freshness_dated config conn now1 s d v t text
                    Hl Hp Hthr Hnum) as H3.
      cbv zeta in H3. rewrite H3.
      assert (Qltb t (hours_old now1 d) = false) as ->.
      { apply Qltb_false. rewrite Heq. apply Qle_refl. }
      simpl. by rewrite app_nil_r.
    + rewrite (validate_after_two_checks _ _ _ _ _ _ _ Hc H1 H2).
      pose proof (check_freshness_dated config conn later s d v t text
                    Hl Hp Hthr Hnum) as H3.
      cbv zeta in H3. rewrite H3.
      assert (Qltb t (hours_old later d) = true) as ->.
      { apply Qltb_true. by rewrite <- Heq. }
      reflexivity.
Qed.

(** The latest row dated 6 March, the threshold of the defaults, 24:
    nothing at midnight, the issue one second later.  And a threshold of
    0.1 hours, which no binary fraction is: nothing six minutes after
    midnight of the latest day, the issue one second later. *)
Lemma freshness_check_boundary_witness :
  ((validate_data_quality default_config
      (fun _ => inr (answers 100 CNull (CText "2024-03-06")))
      start_of_day start_of_day).1 = []
   /\ (validate_data_quality default_config
         (fun _ => inr (answers 100 CNull (CText "2024-03-06")))
         start_of_day just_after_midnight).1
      = ["Data is stale: 24.0 hours old (threshold: 24h)"])
  /\ ((validate_data_quality (load_config (Parsed six_minutes_file)).1
         (fun _ => inr (answers 100 CNull (CText "2024-03-07")))
         six_past_midnight six_past_midnight).1 = []
      /\ (validate_data_quality (load_config (Parsed six_minutes_file)).1
            (fun _ => inr (answers 100 CNull (CText "2024-03-07")))
            six_past_midnight a_second_later).1
         = ["Data is stale: 0.1 hours old (threshold: 0.1h)"]).
Proof.
  split.
  - pose proof (proj2 (proj2 (proj2 (freshness_check_boundary default_config
              (fun _ => inr (answers 100 CNull (CText "2024-03-06")))
              start_of_day start_of_day
              (answers 100 CNull (CText "2024-03-06"))
              empty_report empty_report eq_refl eq_refl eq_refl)))
            "2024-03-06"
            {| year := 2024; month := 3; day := 6;
               hour := 0; minute := 0; second := 0; microsecond := 0 |}
            (JInt 24) (inject_Z 24) "24" just_after_midnight
            eq_refl eq_refl eq_refl eq_refl
            ltac:(vm_compute; discriminate) ltac:(vm_compute; discriminate)
            ltac:(vm_compute; reflexivity)
            ltac:(right; split; [vm_compute; reflexivity|by exists 24])) as H.
    vm_compute in H. exact H.
  - pose proof (proj2 (proj2 (proj2 (freshness_check_boundary
              (load_config (Parsed six_minutes_file)).1
              (fun _ => inr (answers 100 CNull (CText "2024-03-07")))
              six_past_midnight six_past_midnight
              (answers 100 CNull (CText "2024-03-07"))
              empty_report empty_report eq_refl eq_refl eq_refl)))
            "2024-03-07" start_of_day
            (JFloat a_tenth "0.1") a_tenth "0.1" a_second_later
            eq_refl eq_refl eq_refl eq_refl
            ltac:(vm_compute; discriminate) ltac:(vm_compute; discriminate)
            ltac:(vm_compute; reflexivity)
            ltac:(left; vm_compute; reflexivity)) as H.
    vm_compute in H. exact H.
Defined.

(** ** The backup: listing and pruning *)

Lemma entry_name_Some dir p n :
  entry_name dir p = Some n <-> p = (dir ++ [n])%list.
Proof.
  revert p. induction dir as [|d dir IH]; intros p; simpl.
  - destruct p as [|a [|b p]]; split; intros H; by simplify_eq.
  - destruct p as [|a p]; [split; intros H; by simplify_eq|].
    destruct (String.eqb_spec d a) as [->|Hne].
    + rewrite IH. split; intros H; by simplify_eq.
    + split; intros H; by simplify_eq.
Qed.

Lemma elem_of_backup_entries fs dir n :
  n ∈ backup_entries fs dir
  <-> is_Some (fs !! (dir ++ [n])%list) /\ is_backup_name n = true.
Proof.
  unfold backup_entries.
  rewrite list_elem_of_In, filter_In, <- list_elem_of_In, list_elem_of_omap.
  split.
  - intros [(p & Hp & Hn) Hb]. split; [|done].
    apply entry_name_Some in Hn as ->.
    apply list_elem_of_fmap in Hp as ([p x] & -> & Hpx).
    apply elem_of_map_to_list in Hpx. by eexists.
  - intros [[x Hx] Hb]. split; [|done].
    exists (dir ++ [n])%list. split; [|by apply entry_name_Some].
    apply list_elem_of_fmap. exists ((dir ++ [n])%list, x). split; [done|].
    by apply elem_of_map_to_list.
Qed.

Lemma prune_one_files dir cutoff n w r w' :
  prune_one dir cutoff n w = (r, w') ->
  files w' = files w
  \/ (r = inr tt
      /\ files w' = delete (dir ++ [n])%list (files w)
      /\ exists content mtime,
           files w !! (dir ++ [n])%list = Some (File content mtime)
           /\ Qltb mtime cutoff = true).
Proof.
  unfold prune_one, bind, stat_mtime, unlink, log_record, ret, set_files.
  intros H. repeat case_match; simplify_eq/=; eauto 10.
Qed.

Lemma prune_files dir cutoff names w r w' p :
  prune dir cutoff names w = (r, w') ->
  kept_or_pruned dir cutoff names (files w) (files w') p.
Proof.
  revert w. induction names as [|n names IH]; intros w H; simpl in H.
  - unfold ret in H. simplify_eq. by left.
  - unfold bind in H at 1.
    destruct (prune_one dir cutoff n w) as [[e|u] w1] eqn:E1.
    + simplify_eq. apply prune_one_files in E1 as [E|(? & _)]; [|done].
      left. by rewrite E.
    + apply IH in H. unfold kept_or_pruned in H |- *.
      apply prune_one_files in E1 as [E|(_ & E & content & mtime & Hf & Hold)].
      * rewrite E in H. destruct H as [H|(H & n' & c' & m' & Hn & -> & Hf & Hold)].
        -- by left.
        -- right. split; [done|]. exists n', c', m'.
           repeat split; try done. by right.
      * destruct (decide (p = (dir ++ [n])%list)) as [->|Hne].
        -- right. split.
           ++ destruct H as [H|(H & _)]; [|done].
              by rewrite H, E, lookup_delete_eq.
           ++ exists n, content, mtime. repeat split; try done. by left.
        -- rewrite E in H. rewrite lookup_delete_ne in H by done.
           destruct H as [H|(H & n' & c' & m' & Hn & -> & Hf' & Hold')].
           ++ by left.
           ++ right. split; [done|]. exists n', c', m'.
              repeat split; try done. by right.
Qed.

(** A loop that ends without raising has left no old file behind. *)
Lemma prune_complete dir cutoff names w w' n content mtime :
  prune dir cutoff names w = (inr tt, w') ->
  n ∈ names ->
  files w !! (dir ++ [n])%list = Some (File content mtime) ->
  Qltb mtime cutoff = true ->
  files w' !! (dir ++ [n])%list = None.
Proof.
  revert w. induction names as [|h names IH]; intros w H Hn Hf Hold.
  - by apply elem_of_nil in Hn.
  - simpl in H. unfold bind in H at 1.
    destruct (prune_one dir cutoff h w) as [[e|u] w1] eqn:E1; [done|].
    destruct (decide (n = h)) as [->|Hne].
    + pose proof (prune_files _ _ _ _ _ _ (dir ++ [h])%list H) as Hk.
      assert (Hgone : files w1 !! (dir ++ [h])%list = None).
      { revert E1. unfold prune_one, bind, stat_mtime, unlink, log_record,
          ret, set_files. rewrite Hf. simpl. rewrite Hold. simpl.
        rewrite Hf. simpl. intros ?. simplify_eq/=. apply lookup_delete_eq. }
      destruct Hk as [Hk|[Hk _]]; [by rewrite Hk|done].
    + apply elem_of_cons in Hn as [?|Hn]; [done|].
      apply (IH w1 H Hn).
      * apply prune_one_files in E1 as [E|(_ & E & _)]; rewrite E; [done|].
        rewrite lookup_delete_ne; [done|]. intros Heq.
        apply app_inj_1 in Heq as [_ Heq]; [|done]. by simplify_eq.
      * done.
Qed.

(** ** The backup: the steps before the loop *)

Lemma mkdir_exist_ok_effect t p w r w' :
  mkdir_exist_ok t p w = (r, w') ->
  backup_log w' = backup_log w /\ alerts w' = alerts w
  /\ (files w' = files w
      \/ (r = inr tt /\ files w !! p = None
          /\ files w' = <[p := Dir t]> (files w))).
Proof.
  unfold mkdir_exist_ok, set_files. intros H.
  repeat case_match; simplify_eq/=; eauto 10.
Qed.

Lemma copy2_raises src dst w e w' :
  copy2 src dst w = (inl e, w') -> w' = w.
Proof.
  unfold copy2. intros H. repeat case_match; by simplify_eq/=.
Qed.

Lemma copy2_returns src dst w w' :
  copy2 src dst w = (inr tt, w') ->
  backup_log w' = backup_log w /\ alerts w' = alerts w
  /\ exists content mtime,
       files w !! parts src = Some (File content mtime)
       /\ files w' = <[copy_target (files w) src dst := File content mtime]> (files w).
Proof.
  unfold copy2, set_files. intros H.
  repeat case_match; simplify_eq/=; eauto 10.
Qed.

(** A missing source makes the copy raise. *)
Lemma copy2_source_missing src dst w :
  files w !! parts src = None ->
  exists e, copy2 src dst w = (inl e, w).
Proof.
  intros H. unfold copy2. rewrite H.
  assert (bool_decide (is_Some (None : option node)) = false) as ->.
  { apply bool_decide_eq_false. by intros [? ?]. }
  rewrite andb_false_r. case_match; eauto.
Qed.

Lemma app_singleton_ne {A} (l : list A) (x y : A) (tail : list A) :
  x <> y -> ((l ++ [x]) ++ tail)%list <> (l ++ [y])%list.
Proof.
  intros Hne Heq. rewrite <- app_assoc in Heq.
  apply app_inv_head in Heq. simpl in Heq. by simplify_eq.
Qed.

Lemma app_singleton_ne_self {A} (l : list A) (x : A) : (l ++ [x])%list <> l.
Proof.
  intros Heq. apply (f_equal length) in Heq.
  rewrite length_app in Heq. simpl in Heq. lia.
Qed.

(** The copy writes no entry of the backup directory but the new backup
    itself. *)
Lemma copy_target_other fs src dir filename name :
  name <> filename ->
  copy_target fs src (dir ++ [filename])%list <> (dir ++ [name])%list.
Proof.
  intros Hne. unfold copy_target. case_match.
  - by apply app_singleton_ne.
  - rewrite <- (app_nil_r (dir ++ [filename])). by apply app_singleton_ne.
Qed.

Lemma copy_target_not_dir fs src dir filename :
  copy_target fs src (dir ++ [filename])%list <> dir.
Proof.
  unfold copy_target. case_match.
  - rewrite <- app_assoc. intros Heq.
    apply (f_equal length) in Heq. rewrite length_app in Heq. simpl in Heq. lia.
  - apply app_singleton_ne_self.
Qed.


(** The handler touches no file. *)
Lemma create_backup_files config utc_offset order c w :
  files (create_backup config utc_offset order c w)
  = files (backup_steps config utc_offset order c w).2.
Proof.
  unfold create_backup.
  by destruct (backup_steps config utc_offset order c w) as [[e|u] w'].
Qed.

(** The cutoff is seven days before the reading of the clock. *)
Lemma cutoff_timestamp_seven_days utc_offset now :
  (cutoff_timestamp utc_offset now
   == timestamp utc_offset (to_micros now) - inject_Z (7 * 86400))%Q.
Proof.
  unfold cutoff_timestamp, timestamp, timedelta_days.
  generalize (to_micros now). intros m.
  unfold Qeq, Qminus, Qplus, Qopp, inject_Z. simpl. lia.
Qed.

(** C3, as stated, fails: the database file is missing, so the copy
    raises; the backup of thirty days ago, older than the cutoff, is
    still there afterwards, and the failure has been reported. *)
Lemma pruning_needs_the_copy_counterexample :
  let w' := create_backup default_config 0 identity_order noon_clock
              world_without_database in
  let old := ["backups"; "sales_backup_20240206_120000.db"] in
  files world_without_database !! ["sales_data.db"] = None
  /\ is_backup_name "sales_backup_20240206_120000.db" = true
  /\ Qltb (days_before_noon 30) (cutoff_timestamp 0 noon) = true
  /\ files w' !! old = Some (File "february" (days_before_noon 30))
  /\ alerts w'
     = [("Backup Failed",
         "Database backup failed: [Errno 2] No such file or directory: 'sales_data.db'")].
Proof. vm_compute. repeat split. Qed.

(** C3, amended: pruning follows the copy and depends on it.  When the
    directory is there or can be made and the copy raises [e] (a missing
    source is one way), [create_backup] deletes nothing: every path other
    than the directory it may have made is as before; the failure is
    logged and one alert "Backup Failed" is sent. *)
Theorem failed_copy_prunes_nothing
    (config : gmap string json) (utc_offset : Z)
    (order : list string -> list string) (c : clock) (w w1 w2 : world)
    (dir : list string) (src : string) (e : exn) :
  backup_directory config = inr dir ->
  mkdir_exist_ok (mkdir_time c) dir w = (inr tt, w1) ->
  database_path config = inr src ->
  copy2 src (dir ++ [backup_filename (stamp_now c)])%list w1 = (inl e, w2) ->
  let w' := create_backup config utc_offset order c w in
  (forall p, p <> dir -> files w' !! p = files w !! p)
  /\ (forall p, is_Some (files w !! p) -> is_Some (files w' !! p))
  /\ backup_log w' = (backup_log w ++ [(ERROR, ("Backup failed: " ++ str_exn e)%string)])%list
  /\ alerts w'
     = (alerts w ++ [("Backup Failed", ("Database backup failed: " ++ str_exn e)%string)])%list.
Proof.
  intros Hdir Hmk Hsrc Hcp w'.
  assert (Hw' : w' = {| files := files w1;
                        backup_log := (backup_log w1
                                        ++ [(ERROR, ("Backup failed: " ++ str_exn e)%string)])%list;
                        alerts := (alerts w1
                                    ++ [("Backup Failed",
                                         ("Database backup failed: " ++ str_exn e)%string)])%list |}).
  { subst w'. unfold create_backup, backup_steps, bind, lift.
    rewrite Hdir, Hmk, Hsrc, Hcp.
    by rewrite (copy2_raises _ _ _ _ _ Hcp). }
  apply mkdir_exist_ok_effect in Hmk as (Hlog & Hal & Hfs).
  rewrite Hw'. simpl. rewrite Hlog, Hal.
  destruct Hfs as [->|(_ & Hnone & ->)].
  - repeat split; auto.
  - repeat split; auto.
    + intros p Hp. by rewrite lookup_insert_ne.
    + intros p Hp. destruct (decide (dir = p)) as [->|Hne].
      * rewrite lookup_insert_eq. by eexists.
      * by rewrite lookup_insert_ne.
Qed.

Lemma failed_copy_prunes_nothing_witness :
  files (create_backup default_config 0 identity_order noon_clock
           world_without_database)
    !! ["backups"; "sales_backup_20240206_120000.db"]
  = Some (File "february" (days_before_noon 30)).
Proof.
  assert (Hne : ["backups"; "sales_backup_20240206_120000.db"] <> ["backups"])
    by discriminate.
  rewrite (proj1 (failed_copy_prunes_nothing default_config 0 identity_order
                    noon_clock world_without_database world_without_database
                    world_without_database ["backups"] "sales_data.db"
                    (errno "2" "No such file or directory" ["sales_data.db"])
                    eq_refl eq_refl eq_refl eq_refl) _ Hne).
  reflexivity.
Defined.

(** ** C7: the age at which a backup is pruned *)

(** A run that ends without raising has made or found the directory,
    copied the database and gone through the whole listing. *)
Lemma backup_steps_completed config utc_offset order c w w' dir :
  backup_directory config = inr dir ->
  backup_steps config utc_offset order c w = (inr tt, w') ->
  exists w1 src w2,
    mkdir_exist_ok (mkdir_time c) dir w = (inr tt, w1)
    /\ database_path config = inr src
    /\ copy2 src (dir ++ [backup_filename (stamp_now c)])%list w1 = (inr tt, w2)
    /\ exists w3,
         files w3 = files w2
         /\ prune dir (cutoff_timestamp utc_offset (cutoff_now c))
              (order (backup_entries (files w3) dir)) w3 = (inr tt, w').
Proof.
  intros Hdir. unfold backup_steps, bind, lift. rewrite Hdir.
  destruct (mkdir_exist_ok (mkdir_time c) dir w) as [[e1|[]] w1] eqn:E1; [done|].
  destruct (database_path config) as [e2|src] eqn:E2; [done|].
  destruct (copy2 src (dir ++ [backup_filename (stamp_now c)])%list w1)
    as [[e3|[]] w2] eqn:E3; [done|].
  unfold log_record. simpl. intros H.
  exists w1, src, w2. repeat split; try done.
  eexists. split; [|exact H]. done.
Qed.

(** The two options [create_backup] reads. *)
Lemma create_backup_reads_two_options config config' utc_offset order c w :
  config !! "backup_path" = config' !! "backup_path" ->
  config !! "database_path" = config' !! "database_path" ->
  create_backup config utc_offset order c w
  = create_backup config' utc_offset order c w.
Proof.
  intros Hb Hd.
  unfold create_backup, backup_steps, backup_directory, database_path, getitem.
  by rewrite Hb, Hd.
Qed.

(** C7, as stated, fails: no retention window is read from the
    configuration ([create_backup_reads_two_options]).  With thirty days
    asked for, the backup of 29 days ago, one day inside that window, is
    deleted. *)
Lemma retention_window_counterexample :
  let w' := create_backup thirty_days_config 0 identity_order noon_clock
              world_with_backups in
  let backup := ["backups"; "sales_backup_20240207_120000.db"] in
  thirty_days_config !! "retention_days" = Some (JInt 30)
  /\ files world_with_backups !! backup = Some (File "a" (days_before_noon (30 - 1)))
  /\ files w' !! backup = None.
Proof. vm_compute. repeat split. Qed.

(** C7, amended: the window is seven days, whatever the configuration
    holds.  In a run that ends without raising, an entry of the backup
    directory whose name matches the pattern (and is not the name of the
    new backup) and whose modification time is 8 days before the clock
    reading of line 111 is deleted; one whose modification time is 6
    days before it is retained, unchanged. *)
Theorem prune_age_boundary
    (config : gmap string json) (utc_offset : Z)
    (order : list string -> list string) (c : clock) (w w' : world)
    (dir : list string) (name content : string) (mtime : Q) :
  (forall l, order l ≡ₚ l) ->
  backup_directory config = inr dir ->
  backup_steps config utc_offset order c w = (inr tt, w') ->
  is_backup_name name = true ->
  name <> backup_filename (stamp_now c) ->
  files w !! (dir ++ [name])%list = Some (File content mtime) ->
  let now := timestamp utc_offset (to_micros (cutoff_now c)) in
  let after := files (create_backup config utc_offset order c w) in
  ((mtime == now - inject_Z (8 * 86400))%Q -> after !! (dir ++ [name])%list = None)
  /\ ((mtime == now - inject_Z (6 * 86400))%Q ->
        after !! (dir ++ [name])%list = Some (File content mtime)).
Proof.
  intros Hperm Hdir Hrun Hname Hnew Hfile now after.
  assert (Hafter : after = files w').
  { subst after. by rewrite create_backup_files, Hrun. }
  destruct (backup_steps_completed _ _ _ _ _ _ _ Hdir Hrun)
    as (w1 & src & w2 & Hmk & Hsrc & Hcp & w3 & Hw3 & Hprune).
  assert (Hfile3 : files w3 !! (dir ++ [name])%list = Some (File content mtime)).
  { rewrite Hw3.
    apply copy2_returns in Hcp as (_ & _ & ct & mt & _ & ->).
    rewrite lookup_insert_ne by (by apply copy_target_other).
    apply mkdir_exist_ok_effect in Hmk as (_ & _ & [->|(_ & _ & ->)]); [done|].
    rewrite lookup_insert_ne; [done|]. apply not_eq_sym, app_singleton_ne_self. }
  assert (Hin : name ∈ order (backup_entries (files w3) dir)).
  { rewrite (Hperm _). apply elem_of_backup_entries. split; [by eexists|done]. }
  pose proof (cutoff_timestamp_seven_days utc_offset (cutoff_now c)) as Hcut.
  fold now in Hcut. rewrite Hafter. split.
  - intros Hage.
    apply (prune_complete _ _ _ _ _ _ _ _ Hprune Hin Hfile3).
    apply Qltb_true. rewrite Hage, Hcut.
    apply Qplus_lt_r. reflexivity.
  - intros Hage.
    destruct (prune_files _ _ _ _ _ _ (dir ++ [name])%list Hprune)
      as [Hk|(_ & n & ct & mt & _ & _ & Hf & Hold)].
    + by rewrite Hk.
    + rewrite Hfile3 in Hf. injection Hf as <- <-.
      apply Qltb_true in Hold. rewrite Hage, Hcut in Hold.
      apply Qplus_lt_r in Hold. by vm_compute in Hold.
Qed.

Lemma prune_age_boundary_witness :
  let after := files (create_backup default_config 0 identity_order noon_clock
                        world_with_backups) in
  after !! ["backups"; "sales_backup_20240228_120000.db"] = None
  /\ after !! ["backups"; "sales_backup_20240301_120000.db"]
     = Some (File "c" (days_before_noon 6)).
Proof.
  assert (Hperm : forall l, identity_order l ≡ₚ l) by reflexivity.
  assert (Hb : "sales_backup_20240228_120000.db" <> backup_filename (stamp_now noon_clock))
    by (vm_compute; discriminate).
  assert (Hc : "sales_backup_20240301_120000.db" <> backup_filename (stamp_now noon_clock))
    by (vm_compute; discriminate).
  split.
  - apply (proj1 (prune_age_boundary default_config 0 identity_order noon_clock
                    world_with_backups
                    (backup_steps default_config 0 identity_order noon_clock
                       world_with_backups).2
                    ["backups"] "sales_backup_20240228_120000.db" "b"
                    (days_before_noon 8)
                    Hperm eq_refl ltac:(vm_compute; reflexivity) eq_refl Hb
                    ltac:(vm_compute; reflexivity))).
    vm_compute. reflexivity.
  - apply (proj2 (prune_age_boundary default_config 0 identity_order noon_clock
                    world_with_backups
                    (backup_steps default_config 0 identity_order noon_clock
                       world_with_backups).2
                    ["backups"] "sales_backup_20240301_120000.db" "c"
                    (days_before_noon 6)
                    Hperm eq_refl ltac:(vm_compute; reflexivity) eq_refl Hc
                    ltac:(vm_compute; reflexivity))).
    vm_compute. reflexivity.
Defined.

(** ** C10: what [create_backup] leaves alone *)




(** ** More on the configuration *)



(** X2.  Loading is idempotent: a file that holds a loaded configuration
    loads as that configuration.  So the file of defaults that a first
    start writes is read back as the defaults. *)
Theorem load_config_idempotent (f : config_file) :
  (load_config (Parsed (load_config f).1)).1 = (load_config f).1
  /\ (load_config (Parsed default_config)).1 = default_config.
Proof.
  assert (H : forall m : gmap string json, (m ∪ default_config) ∪ default_config
                                           = m ∪ default_config).
  { intros m. by rewrite <- (assoc_L (∪)), (idemp_L (∪)). }
  split.
  - destruct f as [[e|]|e|u]; simpl; unfold dict_update;
      [apply (idemp_L (∪)) .. | apply H].
  - simpl. unfold dict_update. apply (idemp_L (∪)).
Qed.
(** ** [setup_logging] and [__init__] *)

Lemma open_append_effect t p w r w' :
  open_append t p w = (r, w') ->
  backup_log w' = backup_log w /\ alerts w' = alerts w
  /\ (files w' = files w
      \/ (files w !! p = None /\ files w' = <[p := File "" t]> (files w)))
  /\ (r = inr tt -> exists content mtime, files w' !! p = Some (File content mtime)).
Proof.
  unfold open_append, set_files. intros H.
  destruct (is_dir (files w) p) eqn:Hd.
  { simplify_eq. repeat split; auto. done. }
  destruct (files w !! p) as [[content mtime|mtime]|] eqn:Hp.
  - simplify_eq. repeat split; auto. intros _. by exists content, mtime.
  - unfold is_dir in Hd. rewrite Hp, orb_true_r in Hd. done.
  - repeat case_match; simplify_eq/=; repeat split; auto; try done.
    intros _. exists "", t. apply lookup_insert_eq.
Qed.

Lemma setup_logging_effect config t_mkdir t_open now w r w' :
  setup_logging config t_mkdir t_open now w = (r, w') ->
  backup_log w' = backup_log w /\ alerts w' = alerts w
  /\ (forall p, is_Some (files w !! p) -> files w' !! p = files w !! p)
  /\ (r = inr tt ->
      exists dir content mtime,
        log_directory config = inr dir
        /\ files w' !! (dir ++ [log_filename now])%list = Some (File content mtime)).
Proof.
  unfold setup_logging, bind, lift.
  destruct (log_directory config) as [e|dir] eqn:Hdir.
  { intros H. simplify_eq. repeat split; auto. done. }
  destruct (mkdir_exist_ok t_mkdir dir w) as [[e1|[]] w1] eqn:E1.
  { intros H. simplify_eq.
    apply mkdir_exist_ok_effect in E1 as (Hl & Ha & [E|(? & _)]); [|done].
    repeat split; auto; [by rewrite E | done]. }
  intros E2.
  apply mkdir_exist_ok_effect in E1 as (Hl1 & Ha1 & E1).
  apply open_append_effect in E2 as (Hl2 & Ha2 & E2 & Hok).
  split; [congruence|]. split; [congruence|]. split.
  - intros p [x Hx].
    assert (H1 : files w1 !! p = files w !! p).
    { destruct E1 as [->|(_ & Hn & ->)]; [done|].
      rewrite lookup_insert_ne; [done|]. intros ->. by rewrite Hx in Hn. }
    destruct E2 as [->|(Hn & ->)]; [done|].
    rewrite lookup_insert_ne; [done|]. intros <-.
    rewrite H1, Hx in Hn. done.
  - intros Hr. destruct (Hok Hr) as (content & mtime & Hf).
    by exists dir, content, mtime.
Qed.

(** X3.  [setup_logging] only creates: whichever way it ends, every file
    and directory that was there is as before (the log of the day, when
    it exists, is opened for appending and keeps its content); and when
    it returns, the log file of the day is there, in the configured
    directory. *)
Theorem setup_logging_only_creates
    (config : gmap string json) (t_mkdir t_open : Q) (now : datetime)
    (w : world) :
  let result := setup_logging config t_mkdir t_open now w in
  (forall p, is_Some (files w !! p) ->
             files result.2 !! p = files w !! p)
  /\ (forall u, result.1 = inr u ->
        exists dir content mtime,
          log_directory config = inr dir
          /\ files result.2 !! (dir ++ [log_filename now])%list
             = Some (File content mtime)).
Proof.
  intros result.
  destruct (setup_logging config t_mkdir t_open now w) as [r w'] eqn:E.
  subst result. simpl.
  apply setup_logging_effect in E as (_ & _ & Hkeep & Hok).
  split; [exact Hkeep|]. intros [] ->. by apply Hok.
Qed.

Lemma setup_logging_only_creates_witness :
  exists dir content mtime,
    log_directory default_config = inr dir
    /\ files (setup_logging default_config 1709812800 1709812800 noon
                world_with_backups).2
         !! (dir ++ [log_filename noon])%list
       = Some (File content mtime).
Proof.
  apply (proj2 (setup_logging_only_creates default_config 1709812800 1709812800
                  noon world_with_backups) tt).
  vm_compute. reflexivity.
Defined.

(** X4.  The manager that [__init__] builds hands the ETL object the
    value of [database_path] in the loaded configuration: the default
    given to [get] in line 30 is never the one used.  So the backup
    copies, and the validator opens, the database the ETL writes. *)
Theorem init_database_path
    (f : config_file) (t_mkdir t_open : Q) (now : datetime) (w w' : world)
    (m : manager) (printed : list string) :
  init f t_mkdir t_open now w = (inr (m, printed), w') ->
  self_config m = (load_config f).1
  /\ getitem (self_config m) "database_path" = inr (self_etl m)
  /\ forall path,
       self_etl m = JStr path ->
       database_path (self_config m) = inr path
       /\ forall sc, connect sc (self_config m) = sc path.
Proof.
  unfold init, bind, ret.
  destruct (setup_logging (load_config f).1 t_mkdir t_open now w)
    as [[e|[]] w1]; [done|].
  intros H. simplify_eq. simpl.
  assert (Hsome : exists v, (load_config f).1 !! "database_path" = Some v).
  { apply elem_of_dom.
    destruct f as [[e|]|e|u]; simpl; unfold dict_update;
      rewrite ?dom_union, ?elem_of_union; try right;
      apply elem_of_dom; vm_compute; by eexists. }
  destruct Hsome as [v Hv].
  assert (Hget : getitem (load_config f).1 "database_path"
                 = inr (dict_get (load_config f).1 "database_path"
                          (JStr "sales_data.db"))).
  { unfold getitem, dict_get. by rewrite Hv. }
  split; [done|]. split; [exact Hget|].
  intros path Hp. unfold database_path, connect. rewrite Hget, Hp. done.
Qed.

Lemma init_database_path_witness :
  getitem (load_config (Parsed one_threshold_file)).1 "database_path"
  = inr (JStr "sales_data.db").
Proof.
  destruct (init (Parsed one_threshold_file) 1709812800 1709812800 noon
              empty_world) as [[e|[m printed]] w'] eqn:E.
  - vm_compute in E. discriminate.
  - destruct (init_database_path _ _ _ _ _ _ _ _ E) as (Hc & Hg & _).
    rewrite <- Hc, Hg. vm_compute in E. by simplify_eq.
Defined.

(** X5.  Nothing in [__init__] catches the exceptions of
    [setup_logging]: when the log directory is missing and so is its
    parent, [mkdir] raises, no manager is built, and no file has been
    created. *)
Theorem init_needs_the_log_directory
    (f : config_file) (t_mkdir t_open : Q) (now : datetime) (w : world)
    (dir : list string) :
  log_directory (load_config f).1 = inr dir ->
  is_dir (files w) dir = false ->
  files w !! dir = None ->
  is_dir (files w) (removelast dir) = false ->
  exists e, init f t_mkdir t_open now w = (inl e, w).
Proof.
  intros Hdir Hnd Hnone Hparent.
  unfold init, bind, setup_logging, bind, lift. rewrite Hdir.
  unfold mkdir_exist_ok. rewrite Hnd, Hnone, Hparent.
  destruct (files w !! removelast dir); simpl; eauto.
Qed.

Lemma init_needs_the_log_directory_witness :
  exists e, init (Parsed nested_log_file) 1709812800 1709812800 noon empty_world
            = (inl e, empty_world).
Proof.
  apply (init_needs_the_log_directory (Parsed nested_log_file) 1709812800
           1709812800 noon empty_world ["var"; "log"]); reflexivity.
Defined.
(** ** More on the backup: names, log and alerts *)







(** One turn of the loop, with what it logs. *)
Lemma prune_one_effect dir cutoff n w r w' :
  prune_one dir cutoff n w = (r, w') ->
  alerts w' = alerts w
  /\ ((files w' = files w /\ backup_log w' = backup_log w)
      \/ (r = inr tt
          /\ files w' = delete (dir ++ [n])%list (files w)
          /\ backup_log w'
             = (backup_log w
                ++ [(INFO, ("Removed old backup: "
                            ++ str_path (dir ++ [n])%list)%string)])%list
          /\ exists content mtime,
               files w !! (dir ++ [n])%list = Some (File content mtime)
               /\ Qltb mtime cutoff = true)).
Proof.
  unfold prune_one, bind, stat_mtime, unlink, log_record, ret, set_files.
  intros H. repeat case_match; simplify_eq/=; split; eauto 10.
Qed.

(** The loop never creates an entry. *)
Lemma prune_keeps_none dir cutoff names w r w' p :
  prune dir cutoff names w = (r, w') ->
  files w !! p = None -> files w' !! p = None.
Proof.
  intros H Hn.
  destruct (prune_files _ _ _ _ _ _ p H) as [Hk|[Hk _]]; [by rewrite Hk|done].
Qed.

(** The loop sends no alert, and logs one record for each path it
    deletes, and no other. *)
Lemma prune_log dir cutoff names w r w' :
  prune dir cutoff names w = (r, w') ->
  alerts w' = alerts w
  /\ exists removed,
       backup_log w'
       = (backup_log w
          ++ map (fun p => (INFO, ("Removed old backup: " ++ str_path p)%string))
                 removed)%list
       /\ forall p, p ∈ removed
                    <-> is_Some (files w !! p) /\ files w' !! p = None.
Proof.
  revert w. induction names as [|n names IH]; intros w H; simpl in H.
  - unfold ret in H. simplify_eq. split; [done|]. exists []. split.
    + simpl. by rewrite app_nil_r.
    + intros p. split; [by intros ?%elem_of_nil|].
      intros [[x Hx] Hn]. by rewrite Hx in Hn.
  - unfold bind in H at 1.
    destruct (prune_one dir cutoff n w) as [[e|u] w1] eqn:E1.
    + simplify_eq.
      apply prune_one_effect in E1 as (Ha & [[Hf Hl]|(? & _)]); [|done].
      split; [done|]. exists []. split.
      * simpl. by rewrite app_nil_r.
      * intros p. split; [by intros ?%elem_of_nil|].
        intros [[x Hx] Hn]. rewrite Hf, Hx in Hn. done.
    + pose proof (IH w1 H) as (Ha' & removed & Hl' & Hrem).
      apply prune_one_effect in E1
        as (Ha & [[Hf Hl]|(_ & Hf & Hl & content & mtime & Hfile & Hold)]).
      * split; [congruence|]. exists removed. split; [by rewrite Hl', Hl|].
        intros p. rewrite Hrem, Hf. done.
      * split; [congruence|]. exists ((dir ++ [n])%list :: removed). split.
        { rewrite Hl', Hl. simpl. by rewrite <- app_assoc. }
        intros p. rewrite elem_of_cons, Hrem, Hf. split.
        -- intros [->|[[x Hx] Hn]].
           ++ split; [by eexists|].
              apply (prune_keeps_none _ _ _ _ _ _ _ H).
              by rewrite Hf, lookup_delete_eq.
           ++ split; [|done].
              destruct (decide (p = (dir ++ [n])%list)) as [->|Hne].
              ** by rewrite lookup_delete_eq in Hx.
              ** rewrite lookup_delete_ne in Hx by done. by eexists.
        -- intros [[x Hx] Hn].
           destruct (decide (p = (dir ++ [n])%list)) as [->|Hne]; [by left|].
           right. split; [|done]. rewrite lookup_delete_ne by done. by eexists.
Qed.

(** The steps of [create_backup], one after the other. *)
Lemma backup_steps_trace config utc_offset order c w dir :
  backup_directory config = inr dir ->
  let file := (dir ++ [backup_filename (stamp_now c)])%list in
  let run := backup_steps config utc_offset order c w in
  exists r1 w1,
    mkdir_exist_ok (mkdir_time c) dir w = (r1, w1)
    /\ match r1 with
       | inl e => run = (inl e, w1)
       | inr _ =>
           match database_path config with
           | inl e => run = (inl e, w1)
           | inr src =>
               exists r2 w2,
                 copy2 src file w1 = (r2, w2)
                 /\ match r2 with
                    | inl e => run = (inl e, w2)
                    | inr _ =>
                        exists w3,
                          files w3 = files w2 /\ alerts w3 = alerts w2
                          /\ backup_log w3
                             = (backup_log w2
                                ++ [(INFO, ("Database backup created: "
                                            ++ str_path file)%string)])%list
                          /\ run = prune dir
                                     (cutoff_timestamp utc_offset (cutoff_now c))
                                     (order (backup_entries (files w3) dir)) w3
                    end
           end
       end.
Proof.
  intros Hdir file run. subst run. unfold backup_steps, bind, lift.
  rewrite Hdir.
  destruct (mkdir_exist_ok (mkdir_time c) dir w) as [r1 w1] eqn:E1.
  exists r1, w1. split; [done|]. destruct r1 as [e1|[]]; [done|].
  destruct (database_path config) as [e2|src]; [done|].
  fold file. destruct (copy2 src file w1) as [r2 w2] eqn:E2.
  exists r2, w2. split; [done|]. destruct r2 as [e3|[]]; [done|].
  unfold log_record. simpl.
  exists {| files := files w2;
            backup_log := (backup_log w2
                           ++ [(INFO, ("Database backup created: "
                                       ++ str_path file)%string)])%list;
            alerts := alerts w2 |}.
  repeat split; reflexivity.
Qed.

(** ** More on the backup: what becomes of the files *)

Ltac trace_backup Hdir :=
  let r1 := fresh "r1" in let w1 := fresh "w1" in
  let E1 := fresh "E1" in let H := fresh "Htrace" in
  match goal with
  | |- context [backup_steps ?config ?offset ?order ?c ?w] =>
      destruct (backup_steps_trace config offset order c w _ Hdir)
        as (r1 & w1 & E1 & H)
  end.





Lemma backup_steps_alerts config utc_offset order c w :
  alerts (backup_steps config utc_offset order c w).2 = alerts w.
Proof.
  destruct (backup_directory config) as [e|dir] eqn:Hdir.
  { unfold backup_steps, bind, lift. by rewrite Hdir. }
  trace_backup Hdir.
  pose proof (mkdir_exist_ok_effect _ _ _ _ _ E1) as (_ & Ha1 & _).
  destruct r1 as [e1|[]]; [by rewrite Htrace|].
  destruct (database_path config) as [e|src]; [by rewrite Htrace|].
  destruct Htrace as (r2 & w2 & E2 & Htrace).
  destruct r2 as [e2|[]].
  { rewrite Htrace. simpl. by rewrite (copy2_raises _ _ _ _ _ E2). }
  apply copy2_returns in E2 as (_ & Ha2 & _).
  destruct Htrace as (w3 & _ & Ha3 & _ & Hrun).
  destruct (backup_steps config utc_offset order c w) as [r w'] eqn:E.
  symmetry in Hrun. apply prune_log in Hrun as [Ha _]. simpl. congruence.
Qed.

(** X8.  One alert for a failed backup, none for one that succeeds: the
    alerts after [create_backup] are those before it, followed, exactly
    when a step has raised [e], by the one alert "Backup Failed" that
    carries the text of [e]. *)
Theorem alert_exactly_on_failure
    (config : gmap string json) (utc_offset : Z)
    (order : list string -> list string) (c : clock) (w : world) :
  alerts (create_backup config utc_offset order c w)
  = (alerts w
     ++ match (backup_steps config utc_offset order c w).1 with
        | inl e => [("Backup Failed",
                     ("Database backup failed: " ++ str_exn e)%string)]
        | inr _ => []
        end)%list.
Proof.
  pose proof (backup_steps_alerts config utc_offset order c w) as Ha.
  unfold create_backup.
  destruct (backup_steps config utc_offset order c w) as [[e|u] w']; simpl in *.
  - by rewrite Ha.
  - by rewrite app_nil_r.
Qed.




Lemma backup_steps_keeps_entries config utc_offset order c w dir :
  backup_directory config = inr dir ->
  let run := backup_steps config utc_offset order c w in
  (forall p, is_Some (files w !! p) -> files run.2 !! p = None ->
             (INFO, ("Removed old backup: " ++ str_path p)%string)
             ∈ backup_log run.2).
Proof.
  intros Hdir run p Hp Hgone. subst run.
  trace_backup Hdir.
  assert (H1 : is_Some (files w1 !! p)).
  { apply mkdir_exist_ok_effect in E1 as (_ & _ & [->|(_ & _ & ->)]); [done|].
    destruct (decide (dir = p)) as [->|Hne].
    - rewrite lookup_insert_eq. by eexists.
    - by rewrite lookup_insert_ne. }
  destruct r1 as [e1|[]].
  { rewrite Htrace in Hgone. simpl in Hgone. rewrite Hgone in H1.
    by destruct H1. }
  destruct (database_path config) as [e|src].
  { rewrite Htrace in Hgone. simpl in Hgone. rewrite Hgone in H1.
    by destruct H1. }
  destruct Htrace as (r2 & w2 & E2 & Htrace).
  destruct r2 as [e2|[]].
  { rewrite Htrace in Hgone. simpl in Hgone.
    rewrite (copy2_raises _ _ _ _ _ E2) in Hgone. rewrite Hgone in H1.
    by destruct H1. }
  destruct Htrace as (w3 & Hf3 & _ & Hl3 & Hrun).
  assert (H3 : is_Some (files w3 !! p)).
  { rewrite Hf3. apply copy2_returns in E2 as (_ & _ & ct & mt & _ & ->).
    match goal with |- is_Some (<[?t := _]> _ !! _) =>
      destruct (decide (t = p)) as [->|Hne] end.
    - rewrite lookup_insert_eq. by eexists.
    - by rewrite lookup_insert_ne. }
  destruct (backup_steps config utc_offset order c w) as [r w'] eqn:E.
  symmetry in Hrun. simpl in *.
  apply prune_log in Hrun as (_ & removed & Hl & Hrem).
  rewrite Hl. apply elem_of_app. right.
  apply (list_elem_of_fmap_2 (fun p => (INFO, ("Removed old backup: " ++ str_path p)%string))).
  by apply Hrem.
Qed.

(** X11.  No deletion goes unrecorded: for every path that was there
    before [create_backup] and is gone after it, the log holds the
    record "Removed old backup: <path>". *)
Theorem deletions_are_logged
    (config : gmap string json) (utc_offset : Z)
    (order : list string -> list string) (c : clock) (w : world)
    (p : list string) :
  let w' := create_backup config utc_offset order c w in
  is_Some (files w !! p) ->
  files w' !! p = None ->
  (INFO, ("Removed old backup: " ++ str_path p)%string) ∈ backup_log w'.
Proof.
  intros w' Hp Hgone. subst w'. rewrite create_backup_files in Hgone.
  destruct (backup_directory config) as [e|dir] eqn:Hdir.
  { exfalso. revert Hgone. unfold backup_steps, bind, lift. rewrite Hdir.
    simpl. intros Hgone. rewrite Hgone in Hp. by destruct Hp. }
  pose proof (backup_steps_keeps_entries config utc_offset order c w dir Hdir
                p Hp Hgone) as Hlog.
  unfold create_backup.
  destruct (backup_steps config utc_offset order c w) as [[e|u] w']; simpl in *.
  - apply elem_of_app. by left.
  - done.
Qed.

Lemma deletions_are_logged_witness :
  (INFO, "Removed old backup: backups/sales_backup_20240228_120000.db")
  ∈ backup_log (create_backup default_config 0 identity_order noon_clock
                  world_with_backups).
Proof.
  apply (deletions_are_logged default_config 0 identity_order noon_clock
           world_with_backups ["backups"; "sales_backup_20240228_120000.db"]).
  - vm_compute. by eexists.
  - vm_compute. reflexivity.
Defined.



(** ** More on the validator: the list and the log *)

Lemma prefix_append s r : String.prefix s (s ++ r) = true.
Proof.
  induction s as [|a s IH]; simpl; [by destruct r|].
  destruct (Ascii.ascii_dec a a); [exact IH|done].
Qed.

Lemma issue_kinds :
  (forall n t, is_volume_issue (low_count_issue n t) = true)
  /\ (forall a, is_outlier_issue (high_amount_issue a) = true)
  /\ (forall h t, is_stale_issue (stale_issue h t) = true)
  /\ (forall e, is_failure_issue (failed_issue e) = true).
Proof. repeat split; intros; apply prefix_append. Qed.

Lemma check_issues_not_failures :
  (forall n t, is_failure_issue (low_count_issue n t) = false)
  /\ (forall a, is_failure_issue (high_amount_issue a) = false)
  /\ (forall h t, is_failure_issue (stale_issue h t) = false).
Proof. repeat split. Qed.

(** X13.  The returned list has at most three issues, at most one of
    each kind, in the order volume, outlier, freshness, failure. *)
Theorem validate_issue_list
    (config : gmap string json) (sc : string -> exn + connection)
    (now0 now1 : datetime) :
  exists v o s f,
    (validate_data_quality config sc now0 now1).1 = (v ++ o ++ s ++ f)%list
    /\ (length v <= 1 /\ length o <= 1 /\ length s <= 1 /\ length f <= 1)%nat
    /\ Forall (fun x => is_volume_issue x = true) v
    /\ Forall (fun x => is_outlier_issue x = true) o
    /\ Forall (fun x => is_stale_issue x = true) s
    /\ Forall (fun x => is_failure_issue x = true) f
    /\ (length (validate_data_quality config sc now0 now1).1 <= 3)%nat.
Proof.
  destruct issue_kinds as (Kv & Ko & Ks & Kf).
  destruct (connect sc config) as [e|conn] eqn:Hc.
  { rewrite (validate_connect_fails _ _ _ _ _ Hc). simpl.
    exists [], [], [], [failed_issue e]. simpl.
    repeat split; auto; repeat constructor; apply Kf. }
  rewrite (validate_shape _ _ _ _ _ Hc). simpl.
  pose proof (check_transaction_count_issues config conn (strftime_Ymd now0)) as I1.
  pose proof (check_transaction_amounts_issues config conn (strftime_Ymd now0)) as I2.
  pose proof (check_freshness_issues config conn now1) as I3.
  pose proof (check_transaction_count_raises config conn (strftime_Ymd now0)) as R1.
  pose proof (check_transaction_amounts_raises config conn (strftime_Ymd now0)) as R2.
  pose proof (check_freshness_raises config conn now1) as R3.
  simpl in I1, I2, I3. unfold raises_before_append in R1, R2, R3.
  destruct (check_transaction_count config conn (strftime_Ymd now0) empty_report)
    as [[e1|[]] d1].
  { rewrite (R1 e1 d1 eq_refl). simpl.
    exists [], [], [], [failed_issue e1]. simpl.
    repeat split; auto; repeat constructor; apply Kf. }
  destruct (check_transaction_amounts config conn (strftime_Ymd now0) empty_report)
    as [[e2|[]] d2].
  { rewrite (R2 e2 d2 eq_refl). simpl in *.
    exists (quality_issues d1), [], [], [failed_issue e2].
    destruct I1 as [->|(n & t & ->)]; simpl;
      repeat split; auto; repeat constructor; auto. }
  destruct (check_freshness config conn now1 empty_report) as [[e3|[]] d3].
  { rewrite (R3 e3 d3 eq_refl). simpl in *.
    exists (quality_issues d1), (quality_issues d2), [], [failed_issue e3].
    destruct I1 as [->|(n & t & ->)]; destruct I2 as [->|(a & ->)]; simpl;
      repeat split; auto; repeat constructor; auto. }
  simpl in *.
  exists (quality_issues d1), (quality_issues d2), (quality_issues d3), [].
  destruct I1 as [->|(n & t & ->)]; destruct I2 as [->|(a & ->)];
    destruct I3 as [->|(h & t' & ->)]; simpl;
    repeat split; auto; repeat constructor; auto.
Qed.

Lemma mirrored_empty : mirrored empty_report.
Proof. split; [done|constructor]. Qed.

Lemma mirrored_extend s d : mirrored s -> mirrored d -> mirrored (extend s d).
Proof.
  intros [Hl Hf] [Hl' Hf']. split; simpl.
  - by rewrite map_app, Hl, Hl'.
  - by apply Forall_app.
Qed.

Lemma check_transaction_count_mirrored config conn today :
  mirrored (check_transaction_count config conn today empty_report).2.
Proof.
  unfold check_transaction_count. crush_run;
    (split; [done | repeat constructor]).
Qed.

Lemma check_transaction_amounts_mirrored config conn today :
  mirrored (check_transaction_amounts config conn today empty_report).2.
Proof.
  unfold check_transaction_amounts. crush_run;
    (split; [done | repeat constructor]).
Qed.

Lemma check_freshness_mirrored config conn now :
  mirrored (check_freshness config conn now empty_report).2.
Proof.
  unfold check_freshness. crush_run;
    (split; [done | repeat constructor]).
Qed.

Lemma checks_mirrored config sc now0 now1 :
  mirrored (checks config sc now0 now1 empty_report).2.
Proof.
  unfold checks, bind, lift.
  destruct (connect sc config) as [e|conn]; [apply mirrored_empty|].
  rewrite (check_transaction_count_appends config conn (strftime_Ymd now0)).
  pose proof (check_transaction_count_mirrored config conn (strftime_Ymd now0)) as M1.
  destruct (check_transaction_count config conn (strftime_Ymd now0) empty_report)
    as [[e1|[]] d1]; simpl in *.
  { apply mirrored_extend; [apply mirrored_empty|done]. }
  rewrite (check_transaction_amounts_appends config conn (strftime_Ymd now0)).
  pose proof (check_transaction_amounts_mirrored config conn (strftime_Ymd now0)) as M2.
  destruct (check_transaction_amounts config conn (strftime_Ymd now0) empty_report)
    as [[e2|[]] d2]; simpl in *.
  { repeat apply mirrored_extend; [apply mirrored_empty|done..]. }
  rewrite (check_freshness_appends config conn now1).
  pose proof (check_freshness_mirrored config conn now1) as M3.
  destruct (check_freshness config conn now1 empty_report) as [r3 d3]; simpl in *.
  repeat apply mirrored_extend; [apply mirrored_empty|done..].
Qed.

Lemma map_log_of_issue l :
  Forall (fun s => is_failure_issue s = false) l ->
  map log_of_issue l = map (fun s => (WARNING, s)) l.
Proof.
  induction 1 as [|s l Hs _ IH]; simpl; [done|].
  unfold log_of_issue at 1. by rewrite Hs, IH.
Qed.

(** X14.  The log tells what the list tells: the records the validator
    writes are its issues, one record for each, in the same order, at
    level WARNING for an issue of a check and at level ERROR for the
    issue of the handler. *)
Theorem validate_log_mirrors_issues
    (config : gmap string json) (sc : string -> exn + connection)
    (now0 now1 : datetime) :
  (validate_data_quality config sc now0 now1).2
  = map log_of_issue (validate_data_quality config sc now0 now1).1.
Proof.
  pose proof (checks_mirrored config sc now0 now1) as [Hl Hf].
  unfold validate_data_quality.
  destruct (checks config sc now0 now1 empty_report) as [[e|u] r]; simpl in *.
  - rewrite map_app, (map_log_of_issue _ Hf), Hl. simpl.
    unfold log_of_issue. by rewrite (proj2 (proj2 (proj2 issue_kinds)) e).
  - by rewrite (map_log_of_issue _ Hf).
Qed.



(** X16.  The one-level merge of [load_config] and the subscripts of the
    validator do not go together.  For a file that gives
    [quality_thresholds] without [min_daily_transactions], every
    validation against a database that answers the count query returns
    the one issue of the handler, which names the missing key. *)
Theorem partial_thresholds_fail_validation
    (user_config section : gmap string json)
    (sc : string -> exn + connection) (now0 now1 : datetime)
    (conn : connection) (n : Z) :
  user_config !! "quality_thresholds" = Some (JObj section) ->
  section !! "min_daily_transactions" = None ->
  connect sc (load_config (Parsed user_config)).1 = inr conn ->
  count_on conn (strftime_Ymd now0) = inr n ->
  (validate_data_quality (load_config (Parsed user_config)).1 sc now0 now1).1
  = ["Data quality check failed: 'min_daily_transactions'"].
Proof.
  intros Hq Hmin Hc Hn.
  rewrite (validate_shape _ _ _ _ _ Hc). cbv zeta.
  assert (Ht : threshold (load_config (Parsed user_config)).1
                 "min_daily_transactions"
               = inl (KeyError "min_daily_transactions")).
  { unfold threshold, getitem.
    rewrite (load_config_present_key _ _ _ Hq). simpl.
    unfold getitem. by rewrite Hmin. }
  unfold check_transaction_count at 1 2, bind, lift. rewrite Hn, Ht. reflexivity.
Qed.

Lemma partial_thresholds_fail_validation_witness :
  (validate_data_quality (load_config (Parsed amount_threshold_file)).1
     (fun _ => inr (answers 100 (CReal 25) (CText "2024-03-07"))) noon noon).1
  = ["Data quality check failed: 'min_daily_transactions'"].
Proof.
  apply (partial_thresholds_fail_validation amount_threshold_file
           {[ "max_transaction_amount" := JInt 5000 ]}
           (fun _ => inr (answers 100 (CReal 25) (CText "2024-03-07")))
           noon noon (answers 100 (CReal 25) (CText "2024-03-07")) 100);
    reflexivity.
Defined.
(** ** Dates written and read back *)

Lemma four_digits_checked : forallb four_digits (seqZ 1000 9000) = true.
Proof. vm_compute. reflexivity. Qed.

Lemma match_Y_roundtrip y rest :
  1000 <= y <= 9999 -> match_Y (zero_pad 4 y ++ rest) = Some (y, rest).
Proof.
  intros Hy.
  assert (H : four_digits y = true).
  { pose proof four_digits_checked as Hall.
    rewrite forallb_forall in Hall. apply Hall.
    apply list_elem_of_In, elem_of_seqZ. lia. }
  unfold four_digits in H.
  destruct (zero_pad 4 y) as [|a [|b [|c [|d [|]]]]]; try discriminate H.
  simpl.
  destruct (digit_value a), (digit_value b), (digit_value c), (digit_value d);
    try discriminate H.
  apply Z.eqb_eq in H. by rewrite H.
Qed.

Lemma match_m_roundtrip m rest :
  1 <= m <= 12 -> match_m (zero_pad 2 m ++ rest) = Some (m, rest).
Proof.
  intros Hm.
  assert (H : m = 1 \/ m = 2 \/ m = 3 \/ m = 4 \/ m = 5 \/ m = 6 \/ m = 7
              \/ m = 8 \/ m = 9 \/ m = 10 \/ m = 11 \/ m = 12) by lia.
  repeat (destruct H as [->|H]; [reflexivity|]). subst m. reflexivity.
Qed.

Lemma match_d_roundtrip d rest :
  1 <= d <= 31 -> match_d (zero_pad 2 d ++ rest) = Some (d, rest).
Proof.
  intros Hd.
  assert (H : (d = 1 \/ d = 2 \/ d = 3 \/ d = 4 \/ d = 5 \/ d = 6 \/ d = 7
               \/ d = 8 \/ d = 9 \/ d = 10)
              \/ (d = 11 \/ d = 12 \/ d = 13 \/ d = 14 \/ d = 15 \/ d = 16
                  \/ d = 17 \/ d = 18 \/ d = 19 \/ d = 20)
              \/ (d = 21 \/ d = 22 \/ d = 23 \/ d = 24 \/ d = 25 \/ d = 26
                  \/ d = 27 \/ d = 28 \/ d = 29 \/ d = 30 \/ d = 31)) by lia.
  destruct H as [H|[H|H]];
    repeat (destruct H as [->|H]; [reflexivity|]); subst d; reflexivity.
Qed.

Lemma days_in_month_le y m : days_in_month y m <= 31.
Proof.
  unfold days_in_month. case_match; [lia|].
  destruct (Z.to_nat m) as [|[|[|[|[|[|[|[|[|[|[|[|[|[|]]]]]]]]]]]]]]; simpl; lia.
Qed.

Lemma match_dash_dash rest : match_dash ("-" ++ rest) = Some rest.
Proof. reflexivity. Qed.

Lemma string_app_assoc (a b c : string) : (a ++ b) ++ c = a ++ (b ++ c).
Proof.
  induction a as [|x a IH]; [done|].
  change (String x ((a ++ b) ++ c) = String x (a ++ (b ++ c))). by rewrite IH.
Qed.

Lemma string_app_nil_r (a : string) : a ++ "" = a.
Proof.
  induction a as [|x a IH]; [done|].
  change (String x (a ++ "") = String x a). by rewrite IH.
Qed.

(** The text of a day, followed by anything, as line 163 reads it: the
    day at midnight when nothing follows, an error that quotes what
    follows otherwise. *)
Lemma strptime_day_and_rest t rest :
  valid_date t ->
  strptime_Ymd (strftime_Ymd t ++ rest)
  = if negb (String.eqb rest "")
    then inl (ValueError ("unconverted data remains: " ++ rest))
    else inr (midnight t).
Proof.
  intros (Hy & Hm & Hd).
  pose proof (days_in_month_le (year t) (month t)) as Hle.
  unfold strptime_Ymd, strftime_Ymd.
  rewrite !string_app_assoc.
  rewrite match_Y_roundtrip by done. rewrite match_dash_dash. lazy beta iota.
  rewrite match_m_roundtrip by done. rewrite match_dash_dash. lazy beta iota.
  rewrite match_d_roundtrip by lia. lazy beta iota.
  destruct (negb (String.eqb rest "")); [done|].
  assert ((year t =? 0) = false) as -> by lia.
  assert ((days_in_month (year t) (month t) <? day t) = false) as -> by lia.
  reflexivity.
Qed.

(** What line 128 writes, line 163 reads: the day, at midnight. *)
Lemma strptime_strftime t :
  valid_date t -> strptime_Ymd (strftime_Ymd t) = inr (midnight t).
Proof.
  intros Hv. rewrite <- (string_app_nil_r (strftime_Ymd t)).
  by rewrite (strptime_day_and_rest t "" Hv).
Qed.

Lemma strptime_midnight s d : strptime_Ymd s = inr d -> d = midnight d.
Proof.
  unfold strptime_Ymd. intros H. repeat case_match; by simplify_eq.
Qed.

Lemma micros_within (x lo hi : Z) :
  lo * 1000000 <= x <= hi * 1000000 ->
  (inject_Z lo <= x # 1000000)%Q /\ (x # 1000000 <= inject_Z hi)%Q.
Proof. intros H. unfold Qle, inject_Z. simpl. lia. Qed.

Lemma micros_beyond (x k : Z) :
  k * 1000000 < x -> (inject_Z k + (1 # 1000000) <= x # 1000000)%Q.
Proof. intros H. unfold Qle, Qplus, inject_Z. simpl. lia. Qed.

Lemma micros_since d now :
  d = midnight d ->
  to_micros now - to_micros d
  = (ordinal now - ordinal d) * 86400000000 + time_of_day now.
Proof.
  intros Hd. unfold to_micros, ordinal, time_of_day. rewrite Hd. simpl. lia.
Qed.

(** X17.  Rows of the day are fresh.  When the latest date is the day of
    the clock reading, written as line 128 writes it, and the threshold
    is 24 hours or more, the freshness check adds nothing: after the
    first two checks have completed, the list is theirs. *)
Theorem rows_dated_today_are_fresh
    (config : gmap string json) (sc : string -> exn + connection)
    (now0 now1 : datetime) (conn : connection) (s1 s2 : report)
    (v : json) (t : Q) (text : string) :
  connect sc config = inr conn ->
  check_transaction_count config conn (strftime_Ymd now0) empty_report
  = (inr tt, s1) ->
  check_transaction_amounts config conn (strftime_Ymd now0) s1 = (inr tt, s2) ->
  valid_date now1 -> valid_time now1 ->
  latest_date conn = inr (CText (strftime_Ymd now1)) ->
  threshold config "data_freshness_hours" = inr v ->
  to_number v = Some (t, text) ->
  (inject_Z 24 <= t)%Q ->
  (validate_data_quality config sc now0 now1).1 = quality_issues s2.
Proof.
  intros Hc H1 H2 Hdate Htime Hl Hv Ht Hge.
  rewrite (validate_after_two_checks _ _ _ _ _ _ _ Hc H1 H2).
  pose proof (check_freshness_dated config conn now1 _ _ v t text
                Hl (strptime_strftime now1 Hdate) Hv Ht) as E3.
  cbv zeta in E3. rewrite E3. clear E3.
  assert (Hfresh : Qltb t (hours_old now1 (midnight now1)) = false).
  { apply Qltb_false. apply Qle_trans with (inject_Z 24); [|done].
    rewrite hours_old_eq. unfold total_seconds.
    rewrite (micros_since (midnight now1) now1 eq_refl).
    destruct Htime as (Hh & Hm & Hs & Hu).
    apply hours_within_day;
      apply (micros_within _ 0 86400); unfold ordinal, time_of_day; simpl; lia. }
  rewrite Hfresh. simpl. by rewrite app_nil_r.
Qed.

Lemma rows_dated_today_are_fresh_witness :
  (validate_data_quality default_config
     (fun _ => inr (answers 100 (CReal 25) (CText "2024-03-07"))) noon noon).1
  = [].
Proof.
  apply (rows_dated_today_are_fresh default_config
           (fun _ => inr (answers 100 (CReal 25) (CText "2024-03-07")))
           noon noon (answers 100 (CReal 25) (CText "2024-03-07"))
           empty_report empty_report (JInt 24) (inject_Z 24) "24"
           eq_refl eq_refl eq_refl).
  - vm_compute. repeat split; discriminate.
  - vm_compute. repeat split; discriminate.
  - reflexivity.
  - reflexivity.
  - reflexivity.
  - apply Qle_refl.
Defined.

(** X18.  The age is counted in whole days and the time of the check.
    When the latest date is a day before the day of the clock reading
    and the threshold is 24 hours or less, the data is reported stale at
    any time after midnight, however late in its day the latest row was
    written; the age that the text names is the float of line 164,
    with one decimal place. *)
Theorem rows_dated_before_today_are_stale
    (config : gmap string json) (sc : string -> exn + connection)
    (now0 now1 : datetime) (conn : connection) (s1 s2 : report)
    (s : string) (d : datetime) (v : json) (t : Q) (text : string) :
  connect sc config = inr conn ->
  check_transaction_count config conn (strftime_Ymd now0) empty_report
  = (inr tt, s1) ->
  check_transaction_amounts config conn (strftime_Ymd now0) s1 = (inr tt, s2) ->
  latest_date conn = inr (CText s) ->
  strptime_Ymd s = inr d ->
  ordinal d < ordinal now1 ->
  0 < time_of_day now1 ->
  threshold config "data_freshness_hours" = inr v ->
  to_number v = Some (t, text) ->
  (t <= inject_Z 24)%Q ->
  (validate_data_quality config sc now0 now1).1
  = (quality_issues s2
     ++ [("Data is stale: " ++ format_f false 1 (hours_old now1 d)
          ++ " hours old (threshold: " ++ text ++ "h)")%string])%list.
Proof.
  intros Hc H1 H2 Hl Hp Hord Htime Hv Ht Hle.
  rewrite (validate_after_two_checks _ _ _ _ _ _ _ Hc H1 H2).
  pose proof (check_freshness_dated config conn now1 s d v t text
                Hl Hp Hv Ht) as E3.
  cbv zeta in E3. rewrite E3. clear E3.
  assert (Hstale : Qltb t (hours_old now1 d) = true).
  { apply Qltb_true. apply Qle_lt_trans with (inject_Z 24); [done|].
    rewrite hours_old_eq. unfold total_seconds.
    rewrite (micros_since d now1 (strptime_midnight _ _ Hp)).
    apply hours_after_day. apply micros_beyond. nia. }
  rewrite Hstale. reflexivity.
Qed.

(** Three minutes after midnight the age is 24.05 hours, and the double
    that holds it is printed as 24.1. *)
Lemma rows_dated_before_today_are_stale_witness :
  (validate_data_quality default_config
     (fun _ => inr (answers 100 CNull (CText "2024-03-06")))
     three_past_midnight three_past_midnight).1
  = ["Data is stale: 24.1 hours old (threshold: 24h)"].
Proof.
  pose proof (rows_dated_before_today_are_stale default_config
           (fun _ => inr (answers 100 CNull (CText "2024-03-06")))
           three_past_midnight three_past_midnight
           (answers 100 CNull (CText "2024-03-06"))
           empty_report empty_report "2024-03-06" (midnight noon_before)
           (JInt 24) (inject_Z 24) "24"
           eq_refl eq_refl eq_refl eq_refl eq_refl
           ltac:(vm_compute; reflexivity) ltac:(vm_compute; reflexivity)
           eq_refl eq_refl ltac:(apply Qle_refl)) as H.
  vm_compute in H. exact H.
Defined.

(** X19.  The two formats agree: the text line 128 writes for a day is
    read by line 163 as that day at midnight, so the age of a row of the
    day is the time since midnight. *)
Theorem today_reads_back (t : datetime) :
  valid_date t ->
  strptime_Ymd (strftime_Ymd t) = inr (midnight t)
  /\ total_seconds t (midnight t) = time_of_day t # 1000000.
Proof.
  intros Hv. split; [by apply strptime_strftime|].
  unfold total_seconds. rewrite (micros_since (midnight t) t eq_refl).
  f_equal. unfold ordinal. simpl. lia.
Qed.

Lemma today_reads_back_witness :
  strptime_Ymd (strftime_Ymd noon) = inr (midnight noon).
Proof.
  apply (today_reads_back noon). vm_compute. repeat split; discriminate.
Defined.

(** X20.  A latest date that carries its time of day, as the text of a
    timestamp does ('YYYY-MM-DD HH:MM:SS'), is refused by the format of
    line 163: once the first two checks have completed, the list is
    theirs followed by the issue of the handler, which quotes the time
    of day; no freshness verdict is given. *)
Theorem timestamps_fail_the_freshness_check
    (config : gmap string json) (sc : string -> exn + connection)
    (now0 now1 : datetime) (conn : connection) (s1 s2 : report)
    (t : datetime) :
  connect sc config = inr conn ->
  check_transaction_count config conn (strftime_Ymd now0) empty_report
  = (inr tt, s1) ->
  check_transaction_amounts config conn (strftime_Ymd now0) s1 = (inr tt, s2) ->
  valid_date t ->
  latest_date conn = inr (CText (str_datetime t)) ->
  (validate_data_quality config sc now0 now1).1
  = (quality_issues s2
     ++ [("Data quality check failed: unconverted data remains:  "
          ++ zero_pad 2 (hour t) ++ ":" ++ zero_pad 2 (minute t) ++ ":"
          ++ zero_pad 2 (second t))%string])%list.
Proof.
  intros Hc H1 H2 Hv Hl.
  rewrite (validate_after_two_checks _ _ _ _ _ _ _ Hc H1 H2).
  assert (E3 : check_freshness config conn now1 empty_report
               = (inl (ValueError
                         ("unconverted data remains: " ++ " "
                          ++ zero_pad 2 (hour t) ++ ":" ++ zero_pad 2 (minute t)
                          ++ ":" ++ zero_pad 2 (second t))),
                  empty_report)).
  { unfold check_freshness, bind, lift. rewrite Hl.
    assert (Ht : truthy (CText (str_datetime t)) = true).
    { unfold str_datetime, strftime_Ymd. simpl.
      destruct (zero_pad 4 (year t)) as [|a y] eqn:Hy; [|done].
      pose proof (match_Y_roundtrip (year t) "" (proj1 Hv)) as Hm.
      rewrite Hy in Hm. done. }
    rewrite Ht. unfold str_datetime.
    by rewrite (strptime_day_and_rest t _ Hv). }
  rewrite E3. reflexivity.
Qed.

Lemma timestamps_fail_the_freshness_check_witness :
  (validate_data_quality default_config
     (fun _ => inr (answers 100 CNull (CText "2024-03-06 12:00:00"))) noon noon).1
  = ["Data quality check failed: unconverted data remains:  12:00:00"].
Proof.
  apply (timestamps_fail_the_freshness_check default_config
           (fun _ => inr (answers 100 CNull (CText "2024-03-06 12:00:00")))
           noon noon (answers 100 CNull (CText "2024-03-06 12:00:00"))
           empty_report empty_report noon_before eq_refl eq_refl eq_refl).
  - vm_compute. repeat split; discriminate.
  - reflexivity.
Defined.
